(** * solardata: the solar reader and its day/night polling loop

    A shallow embedding of [src/solar_reader.py] (class [SolarReader]) and
    [runner.py] (class [SolarData]), and the properties of the device
    locator, the resilient HTTP client, the metric extraction and the
    polling state machine.

    Conventions of the embedding:
    - Python [str] is [string], read as a sequence of code points below
      256 (Latin-1); digits and white space are those of that range.
    - Python [int] is [Z]; Python [float] is IEEE 754 binary64, taken from
      the standard library's [spec_float] with [prec = 53], [emax = 1024].
    - a Python exception is a constructor of [exn]; a computation that may
      raise returns in [PyResult].
    - the network, the clock and the metric sink are oracles indexed by the
      number of effects performed so far; every effect is recorded in a
      trace, newest event first. *)

From Stdlib Require Import ZArith List String Ascii Bool Lia Arith.
From Stdlib Require Import DecimalString.
From Stdlib Require Import Floats.SpecFloat.
Import ListNotations.

Local Open Scope string_scope.
Local Open Scope Z_scope.

Set Implicit Arguments.

(** ** Python values *)

Module Py.

(** The exception classes the two modules can meet.  [ConnectTimeout] is a
    subclass of both [requests.ConnectionError] and [requests.Timeout];
    [ReadTimeout] of [requests.Timeout] only.  [ReError] is [re.error],
    what [re.search] raises on a pattern that does not compile. *)
Inductive exn : Type :=
| ConnectionError
| ConnectTimeout
| ReadTimeout
| RequestException
| RuntimeError (msg : string)
| IndexError
| ValueError
| OverflowError
| ParserError
| SinkError
| ReError.

Definition isinstance_ConnectionError (e : exn) : bool :=
  match e with
  | ConnectionError | ConnectTimeout => true
  | _ => false
  end.

Definition isinstance_Timeout (e : exn) : bool :=
  match e with
  | ConnectTimeout | ReadTimeout => true
  | _ => false
  end.

Inductive PyResult (A : Type) : Type :=
| Ok (a : A)
| Raise (e : exn).

Arguments Ok {A} a.
Arguments Raise {A} e.

(** *** binary64 *)

Definition prec : Z := 53.
Definition emax : Z := 1024.

Definition float := spec_float.

(** [float(n)] for an [int] operand of a float operation. *)
Definition float_of_Z (n : Z) : float := binary_normalize prec emax n 0 false.

Definition fmul (x y : float) : float := SFmul prec emax x y.

(** [x >= 0] on floats: false on nan, true on both zeros. *)
Definition float_ge0 (x : float) : bool := SFleb (S754_zero false) x.

(** The correctly rounded (nearest, ties to even) binary64 of [n / 10^k],
    for [0 <= n]: what [float] computes from a decimal numeral. *)
Definition float_of_decimal (n : Z) (k : nat) : float :=
  match n with
  | Zpos _ =>
      let '(q, e, l) := SFdiv_core_binary prec emax n 0 (10 ^ Z.of_nat k) 0 in
      binary_round_aux prec emax false q e l
  | _ => S754_zero false
  end.

(** [int(x)] for a float [x]: truncation toward zero. *)
Definition int_of_float (x : float) : PyResult Z :=
  match x with
  | S754_zero _ => Ok 0
  | S754_infinity _ => Raise OverflowError
  | S754_nan => Raise ValueError
  | S754_finite s m e => Ok (cond_Zopp s (Z.shiftl (Zpos m) e))
  end.

(** A value that is an [int] on one path and a [float] on another. *)
Inductive num : Type :=
| Int (z : Z)
| Float (x : float).

Definition num_ge0 (v : num) : bool :=
  match v with
  | Int z => 0 <=? z
  | Float x => float_ge0 x
  end.

(** *** strings *)

Definition is_digit (c : ascii) : bool :=
  let n := nat_of_ascii c in (48 <=? n)%nat && (n <=? 57)%nat.

Definition is_dot (c : ascii) : bool := Ascii.eqb c ".".

(** The white space [int] strips, among the code points below 256: the
    ASCII ones [int] itself skips (tab to carriage return, and space),
    and the two beyond ASCII that it first turns into a space, U+0085 and
    U+00A0.  The separators 0x1C to 0x1F are not among them. *)
Definition is_space (c : ascii) : bool :=
  let n := nat_of_ascii c in
  ((9 <=? n)%nat && (n <=? 13)%nat) || (n =? 32)%nat || (n =? 133)%nat || (n =? 160)%nat.

Fixpoint forallb_str (p : ascii -> bool) (s : string) : bool :=
  match s with
  | EmptyString => true
  | String c s' => p c && forallb_str p s'
  end.

Fixpoint existsb_str (p : ascii -> bool) (s : string) : bool :=
  match s with
  | EmptyString => false
  | String c s' => p c || existsb_str p s'
  end.

Definition nonempty (s : string) : bool :=
  match s with
  | EmptyString => false
  | _ => true
  end.

(** [sub in s] *)
Fixpoint contains (sub s : string) : bool :=
  prefix sub s ||
  match s with
  | EmptyString => false
  | String _ s' => contains sub s'
  end.

Definition digit_val (c : ascii) : Z := Z.of_nat (nat_of_ascii c) - 48.

Fixpoint digits_value (acc : Z) (s : string) : Z :=
  match s with
  | EmptyString => acc
  | String c s' => digits_value (10 * acc + digit_val c) s'
  end.

(** Split at the first dot: the part before it and, when there is a dot,
    the part after it. *)
Fixpoint split_dot (s : string) : string * option string :=
  match s with
  | EmptyString => (EmptyString, None)
  | String c s' =>
      if is_dot c then (EmptyString, Some s')
      else let '(a, b) := split_dot s' in (String c a, b)
  end.

(** [float(s)] for [s] over the alphabet of [number_pattern] (digits and
    dots), the only strings the reader passes to it: a numeral is
    [digits], [digits.], [digits.digits] or [.digits]; anything else is a
    [ValueError], here [None]. *)
Definition float_of_str (s : string) : option float :=
  match split_dot s with
  | (ip, None) =>
      if nonempty ip && forallb_str is_digit ip
      then Some (float_of_decimal (digits_value 0 ip) 0)
      else None
  | (ip, Some fp) =>
      if (nonempty ip || nonempty fp)
         && forallb_str is_digit ip && forallb_str is_digit fp
      then Some (float_of_decimal (digits_value 0 (ip ++ fp)) (String.length fp))
      else None
  end.

(** [int(s)] for a string: white space stripped at both ends, an optional
    sign, then decimal digits, single underscores allowed between digits. *)
Fixpoint lstrip (s : string) : string :=
  match s with
  | String c s' => if is_space c then lstrip s' else s
  | EmptyString => EmptyString
  end.

Fixpoint rstrip (s : string) : string :=
  match s with
  | EmptyString => EmptyString
  | String c s' =>
      match rstrip s' with
      | EmptyString => if is_space c then EmptyString else String c EmptyString
      | r => String c r
      end
  end.

Definition strip (s : string) : string := rstrip (lstrip s).

(** [after_digit] tells whether the previous character was a digit, which
    is where an underscore or the end of the literal may come. *)
Fixpoint int_digits (after_digit : bool) (acc : Z) (s : string) : option Z :=
  match s with
  | EmptyString => if after_digit then Some acc else None
  | String c s' =>
      if is_digit c then int_digits true (10 * acc + digit_val c) s'
      else if Ascii.eqb c "_" && after_digit then int_digits false acc s'
      else None
  end.

Definition int_of_str (s : string) : option Z :=
  match strip s with
  | String "-" r => option_map Z.opp (int_digits false 0 r)
  | String "+" r => int_digits false 0 r
  | r => int_digits false 0 r
  end.

(** [str(n)] for an [int]. *)
Definition str_of_Z (z : Z) : string := NilZero.string_of_int (Z.to_int z).
Definition str_of_nat (n : nat) : string := NilZero.string_of_uint (Nat.to_uint n).

End Py.
Import Py.

(** ** solar_reader.py *)

(** [number_pattern = re.compile(r"([\d.]+)")] and its [findall]: the
    maximal runs of digits and dots, left to right. *)
Definition number_class (c : ascii) : bool := is_digit c || is_dot c.

Fixpoint number_pattern_findall (s : string) : list string :=
  match s with
  | EmptyString => []
  | String c s' =>
      if number_class c then
        match s' with
        | String c' _ =>
            if number_class c' then
              match number_pattern_findall s' with
              | r :: rs => String c r :: rs
              | [] => [String c EmptyString]
              end
            else String c EmptyString :: number_pattern_findall s'
        | EmptyString => [String c EmptyString]
        end
      else number_pattern_findall s'
  end.

(** *** The world the reader runs in *)

Record Response : Type := { status_code : Z; text : string }.

Record datetime : Type := { hour : Z; minute : Z; second : Z }.

Inductive Level : Type := DEBUG | INFO | WARNING | ERROR.

(** One entry per effect: an HTTP GET with its [timeout=] argument, a
    reading of the clock, a [time.sleep], a row handed to the sheet, a
    line handed to the logger. *)
Inductive Event : Type :=
| Get (url : string) (timeout : option Z)
| Now
| Sleep (secs : Z)
| UpdateRow (wh mis : Z) (watts : num)
| Log (level : Level) (msg : string).

(** The attributes of a [SolarReader] object. *)
Record SolarReader : Type := {
  _tag : string;
  _base_ip_range : string;
  _using_static_ip : bool;
  _ip_address : string
}.

Record World : Type := {
  reader : SolarReader;
  trace : list Event
}.

Definition push (e : Event) (w : World) : World :=
  {| reader := reader w; trace := e :: trace w |}.

Definition with_ip (ip : string) (w : World) : World :=
  {| reader := {| _tag := _tag (reader w);
                  _base_ip_range := _base_ip_range (reader w);
                  _using_static_ip := _using_static_ip (reader w);
                  _ip_address := ip |};
     trace := trace w |}.

(** The instant of the next effect. *)
Definition clock (w : World) : nat := List.length (trace w).

(** *** State and exceptions *)

Definition M (A : Type) : Type := World -> PyResult A * World.

Definition ret {A} (a : A) : M A := fun w => (Ok a, w).

Definition raise {A} (e : exn) : M A := fun w => (Raise e, w).

Definition bind {A B} (m : M A) (k : A -> M B) : M B :=
  fun w =>
    match m w with
    | (Ok a, w') => k a w'
    | (Raise e, w') => (Raise e, w')
    end.

(** [try: m] with the outcome handed to the [except] clauses. *)
Definition attempt {A} (m : M A) : M (PyResult A) :=
  fun w => let '(r, w') := m w in (Ok r, w').

Definition lift {A} (r : PyResult A) : M A := fun w => (r, w).

Definition emit (e : Event) : M unit := fun w => (Ok tt, push e w).

Definition self : M SolarReader := fun w => (Ok (reader w), w).

Definition set_ip_address (ip : string) : M unit := fun w => (Ok tt, with_ip ip w).

Declare Scope monad_scope.
Delimit Scope monad_scope with monad.
Notation "x <- m ;; k" := (bind m (fun x => k))
  (at level 61, m at next level, right associativity) : monad_scope.
Notation "m ;; k" := (bind m (fun _ => k))
  (at level 61, right associativity) : monad_scope.
Local Open Scope monad_scope.

(** [data[0]] *)
Definition item0 {A} (l : list A) : M A :=
  match l with
  | x :: _ => ret x
  | [] => raise IndexError
  end.

Definition log (level : Level) (msg : string) : M unit := emit (Log level msg).

Definition time_sleep (secs : Z) : M unit := emit (Sleep secs).

(** *** Sample devices, clocks and pages

    Concrete oracles on which the program is run below.  A sample page
    is its cells joined by semicolons: the power and inverter-count
    selectors pick the first cell, the energy selector the second. *)
Module Sample.

Fixpoint cells (body : string) : list string :=
  match body with
  | EmptyString => [EmptyString]
  | String c body' =>
      if Ascii.eqb c ";" then EmptyString :: cells body'
      else
        match cells body' with
        | r :: rs => String c r :: rs
        | [] => [String c EmptyString]
        end
  end.

Definition xpath (body path : string) : PyResult (list string) :=
  if String.eqb path "/html/body/div[1]/table/tr[3]/td[2]/text()"
  then Ok (firstn 1 (skipn 1 (cells body)))
  else Ok (firstn 1 (cells body)).

Definition re_search (tag body : string) : PyResult bool := Ok (contains tag body).

Definition page (body : string) : PyResult Response :=
  Ok {| status_code := 200; text := body |}.

(** A device at 10.0.0.7 with [count] inverters online and the given
    production page, a router at 10.0.0.3, nothing elsewhere. *)
Definition device (count production : string) (url : string) : PyResult Response :=
  if String.eqb url "http://10.0.0.7" then page "enphase envoy"
  else if String.eqb url "http://10.0.0.7/" then page "enphase envoy"
  else if String.eqb url "http://10.0.0.7/home" then page count
  else if String.eqb url "http://10.0.0.7/production" then page production
  else if String.eqb url "http://10.0.0.3" then page "router"
  else Raise ConnectionError.

Definition net_day (_ : nat) (url : string) (_ : option Z) : PyResult Response :=
  device "5" "850 W;1.20 kW" url.

Definition net_negative (_ : nat) (url : string) (_ : option Z) : PyResult Response :=
  device "-1" "0 W;3.4 kW" url.

Definition net_garbled (_ : nat) (url : string) (_ : option Z) : PyResult Response :=
  device "5" "N/A;N/A" url.

Definition net_down (_ : nat) (_ : string) (_ : option Z) : PyResult Response :=
  Raise ConnectionError.

(** The device answers until instant [t] and is unreachable from then on. *)
Definition net_lost_at (t : nat) (n : nat) (url : string) (timeout : option Z) :
  PyResult Response :=
  if (n <? t)%nat then net_day n url timeout else Raise ConnectionError.

(** No inverter online until instant [t], three from then on. *)
Definition net_sunrise_at (t : nat) (n : nat) (url : string) (_ : option Z) :
  PyResult Response :=
  if (n <? t)%nat then device "0" "0 W;0 W" url else device "3" "40 W;10 W" url.

Definition morning (_ : nat) : datetime := {| hour := 9; minute := 30; second := 0 |}.
Definition afternoon (_ : nat) : datetime := {| hour := 15; minute := 0; second := 0 |}.

Definition sheet_ok (_ : nat) (_ _ : Z) (_ : num) : PyResult unit := Ok tt.

Definition fresh (r : SolarReader) : World := {| reader := r; trace := [] |}.

(** A scanning reader that believes the device at [ip]; a static one. *)
Definition scanning (ip : string) : World :=
  fresh {| _tag := "enphase"; _base_ip_range := "10.0.0";
           _using_static_ip := false; _ip_address := ip |}.

Definition static (ip : string) : World :=
  fresh {| _tag := "enphase"; _base_ip_range := "10.0.0";
           _using_static_ip := true; _ip_address := ip |}.

End Sample.

(** More sample devices. *)
Module MoreSamples.

(** The third candidate of a scan answers with a redirect loop, which
    [requests] raises as neither a connection error nor a time-out. *)
Definition net_redirects (_ : nat) (url : string) (_ : option Z) : PyResult Response :=
  if String.eqb url "http://10.0.0.2" then Raise RequestException
  else Raise ConnectionError.


(** A device whose energy cell shows a firmware version. *)
Definition net_version (_ : nat) (url : string) (_ : option Z) : PyResult Response :=
  Sample.device "5" "850 W;v3.10.2" url.

(** The sample network with such a redirect loop at its third address,
    ahead of the device at 10.0.0.7. *)
Definition net_loop_before_device (_ : nat) (url : string) (_ : option Z) :
  PyResult Response :=
  if String.eqb url "http://10.0.0.2" then Raise RequestException
  else Sample.device "5" "850 W;1.20 kW" url.

(** [re.search] with a tag that is no valid pattern, such as "(". *)
Definition re_search_invalid (_ _ : string) : PyResult bool := Raise ReError.


End MoreSamples.

Section Program.

(** What lies outside the two modules.  [requests_get n url timeout] is
    the outcome of the GET issued as the [n]-th effect; [datetime_now n]
    the clock read then; [update_row n] the outcome of the sheet write
    ([src.sheet_manager] is an external collaborator).  [re_search tag
    body] is the truth value of [re.search(tag, body)], or the exception
    it raises, and [xpath body path] is
    [html.fromstring(body).xpath(path)]. *)
Variable requests_get : nat -> string -> option Z -> PyResult Response.
Variable datetime_now : nat -> datetime.
Variable update_row : nat -> Z -> Z -> num -> PyResult unit.
Variable re_search : string -> string -> PyResult bool.
Variable xpath : string -> string -> PyResult (list string).

Definition requests_get_ (url : string) (timeout : option Z) : M Response :=
  fun w => (requests_get (clock w) url timeout, push (Get url timeout) w).

Definition now : M datetime :=
  fun w => (Ok (datetime_now (clock w)), push Now w).

Definition sheet_update_row (wh mis : Z) (watts : num) : M unit :=
  fun w => (update_row (clock w) wh mis watts, push (UpdateRow wh mis watts) w).

(** The candidate address of host suffix [i]. *)
Definition candidate (base : string) (i : nat) : string :=
  base ++ "." ++ str_of_nat i.

(** The [for i in range(0, 256)] loop of [get_ip_address], over the
    suffixes still to try. *)
Fixpoint scan (tag base : string) (suffixes : list nat) : M (option string) :=
  match suffixes with
  | [] => ret None
  | i :: rest =>
      let ip := candidate base i in
      r <- attempt (response <- requests_get_ ("http://" ++ ip) (Some 2) ;;
                    lift (re_search tag (text response))) ;;
      match r with
      | Ok true => ret (Some ip)
      | Ok false => scan tag base rest
      | Raise e =>
          if isinstance_ConnectionError e || isinstance_Timeout e
          then scan tag base rest
          else raise e
      end
  end.

Definition get_ip_address : M (option string) :=
  s <- self ;;
  if _using_static_ip s then ret (Some (_ip_address s))
  else scan (_tag s) (_base_ip_range s) (seq 0 256).

Definition get_response (path : string) : M Response :=
  s <- self ;;
  r <- attempt (requests_get_ ("http://" ++ _ip_address s ++ path) None) ;;
  match r with
  | Ok response => ret response
  | Raise e =>
      if isinstance_ConnectionError e then
        if _using_static_ip s then raise e
        else
          new_ip <- get_ip_address ;;
          match new_ip with
          | Some new_ip =>
              set_ip_address new_ip ;;
              log INFO ("IP address updated to " ++ new_ip ++ ".") ;;
              requests_get_ ("http://" ++ new_ip ++ path) None
          | None => raise (RuntimeError "A seemingly valid IP address failed.")
          end
      else raise e
  end.

Definition solar_panels_accessible : M bool :=
  log INFO "Determining connection to solar system..." ;;
  r <- attempt (get_response "/") ;;
  match r with
  | Ok response =>
      log INFO "Connected successfully" ;;
      ret (status_code response =? 200)
  | Raise e =>
      if isinstance_ConnectionError e then
        log ERROR "Error: Can't connect to the solar array. Check the POE connection, or the status on the box." ;;
        raise e
      else raise e
  end.

(** [SolarReader.__init__], from the trace so far.  An address that is
    [None] is kept as the empty string: the constructor tests it only
    with [not]. *)
Definition SolarReader_init (tag base_ip_range : string) (static_ip : option string)
  (tr : list Event) : PyResult unit * World :=
  let using_static := match static_ip with Some ip => nonempty ip | None => false end in
  let w0 := {| reader := {| _tag := tag; _base_ip_range := base_ip_range;
                            _using_static_ip := using_static;
                            _ip_address := match static_ip with Some ip => ip | None => "" end |};
               trace := tr |} in
  ((if using_static then
      ok <- solar_panels_accessible ;;
      if ok then ret tt
      else raise (RuntimeError "Static IP was specified but connection could not be made.")
    else
      log INFO "Searching for IP address." ;;
      ip <- get_ip_address ;;
      match ip with
      | Some ip => set_ip_address ip
      | None => set_ip_address ""
      end) ;;
   s <- self ;;
   if nonempty (_ip_address s)
   then log INFO ("Found solar device at IP address " ++ _ip_address s)
   else raise (RuntimeError "Connection could not be established to solar device.")) w0.

(** Lines 119-130 of [get_wh_production], on the text node [data0]. *)
Definition wh_of_text (data0 : string) : M Z :=
  m0 <- item0 (number_pattern_findall data0) ;;
  match float_of_str m0 with
  | None => log ERROR "Couldn't convert to float" ;; ret 0
  | Some data_float =>
      let data_float :=
        if contains "kW" data0 then fmul data_float (float_of_Z 1000) else data_float in
      lift (int_of_float data_float)
  end.

Definition get_wh_production : M Z :=
  page <- get_response "/production" ;;
  data <- lift (xpath (text page) "/html/body/div[1]/table/tr[3]/td[2]/text()") ;;
  data0 <- item0 data ;;
  wh_of_text data0.

(** Lines 140-150 of [get_current_watt_production], on the text node. *)
Definition watts_of_text (data0 : string) : M num :=
  m0 <- item0 (number_pattern_findall data0) ;;
  match float_of_str m0 with
  | None => log ERROR "Couldn't convert to float" ;; ret (Int 0)
  | Some data_float =>
      ret (Float (if contains "kW" data0 then fmul data_float (float_of_Z 1000)
                  else data_float))
  end.

Definition get_current_watt_production : M num :=
  page <- get_response "/production" ;;
  data <- lift (xpath (text page) "/html/body/div[1]/table/tr[2]/td[2]/text()") ;;
  data0 <- item0 data ;;
  watts_of_text data0.

(** Line 165 of [get_mi_online], on the text node. *)
Definition mi_of_text (data0 : string) : M Z :=
  match int_of_str data0 with
  | Some n => ret n
  | None => raise ValueError
  end.

Definition get_mi_online : M Z :=
  log INFO "Determining current solar cell status..." ;;
  page <- get_response "/home" ;;
  data <- lift (xpath (text page) "/html/body/table/tr/td[2]/table/tr[5]/td[2]/text()") ;;
  data0 <- item0 data ;;
  mi_online <- mi_of_text data0 ;;
  log DEBUG (str_of_Z mi_online ++ " out of 24 microinverters online") ;;
  ret mi_online.

Definition is_online : M bool :=
  n <- get_mi_online ;;
  ret (0 <? n).

(** ** runner.py *)

Definition past_noon (dt : datetime) : bool := 12 <? hour dt.

Definition is_past_noon : M bool :=
  dt <- now ;;
  ret (past_noon dt).

(** The [while] loops take fuel: [None] is a loop still running when the
    fuel is spent. *)
Fixpoint wait_on_sunrise_while (fuel : nat) : M (option unit) :=
  match fuel with
  | O => ret None
  | S fuel' =>
      online <- is_online ;;
      if negb online then time_sleep 600 ;; wait_on_sunrise_while fuel'
      else ret (Some tt)
  end.

Definition wait_on_sunrise (fuel : nat) : M (option unit) :=
  log INFO "Waiting for sunrise..." ;;
  wait_on_sunrise_while fuel.

(** The condition of the [while] of [main_loop]; [or] evaluates its right
    operand only when the left one is false. *)
Definition loop_condition : M bool :=
  online <- is_online ;;
  if online then ret true
  else
    pn <- is_past_noon ;;
    ret (negb pn).

(** The [try] block of the loop body. *)
Definition poll : M unit :=
  cur_wh <- get_wh_production ;;
  cur_mis <- get_mi_online ;;
  cur_watts <- get_current_watt_production ;;
  sheet_update_row cur_wh cur_mis cur_watts.

(** The body of the [while] of [main_loop]. *)
Definition cycle : M unit :=
  pn <- is_past_noon ;;
  (if negb pn then
     online <- is_online ;;
     if negb online
     then log ERROR "Solar system shows as offline yet it is still morning."
     else ret tt
   else ret tt) ;;
  r <- attempt poll ;;
  match r with
  | Ok _ => ret tt
  | Raise _ => log ERROR "An exception occurred in the main loop."
  end ;;
  time_sleep 600.

Fixpoint main_loop_while (fuel : nat) : M (option unit) :=
  match fuel with
  | O => ret None
  | S fuel' =>
      c <- loop_condition ;;
      if c then cycle ;; main_loop_while fuel'
      else ret (Some tt)
  end.

Definition main_loop (fuel : nat) : M (option unit) :=
  log INFO "Entering main loop" ;;
  r <- main_loop_while fuel ;;
  match r with
  | Some _ =>
      log INFO "Solar system is offline. Signing off for the night." ;;
      ret (Some tt)
  | None => ret None
  end.

Definition run (fuel : nat) : M (option unit) :=
  log INFO "Started, initializing..." ;;
  online <- is_online ;;
  r <- (if online then
          log INFO "Solar system online on startup." ;;
          main_loop fuel
        else
          pn <- is_past_noon ;;
          if negb pn then
            r <- wait_on_sunrise fuel ;;
            match r with
            | Some _ =>
                log INFO "Microinverters have started, seems like sunrise. Main loop starting." ;;
                main_loop fuel
            | None => ret None
            end
          else
            log WARNING "Program was started after sunset. Shutting down." ;;
            ret (Some tt)) ;;
  match r with
  | Some _ => log INFO "Run call ending, program terminating." ;; ret (Some tt)
  | None => ret None
  end.

(** ** The vocabulary of the statements *)

(** [es] pushed on the trace, newest first. *)
Definition extend (es : list Event) (w : World) : World :=
  {| reader := reader w; trace := es ++ trace w |}.

Definition probe_url (base : string) (i : nat) : string :=
  "http://" ++ candidate base i.

Definition probe_event (base : string) (i : nat) : Event :=
  Get (probe_url base i) (Some 2).

(** What the [try] block of one probe comes to, from the outcome of its
    GET: whether the page matches the tag, or the exception raised by
    the GET or by [re.search]. *)
Definition probe_result (tag : string) (r : PyResult Response) : PyResult bool :=
  match r with
  | Ok response => re_search tag (text response)
  | Raise e => Raise e
  end.

(** A probe that ends the scan with its candidate, and one after which
    the scan goes on to the next candidate. *)
Definition probe_hit (tag : string) (r : PyResult Response) : bool :=
  match probe_result tag r with
  | Ok found => found
  | Raise _ => false
  end.

Definition probe_miss (tag : string) (r : PyResult Response) : bool :=
  match probe_result tag r with
  | Ok found => negb found
  | Raise e => isinstance_ConnectionError e || isinstance_Timeout e
  end.

(** A float that is not nan and does not carry the minus sign. *)
Definition positive_or_zero (x : float) : Prop :=
  match x with
  | S754_zero _ => True
  | S754_infinity s | S754_finite s _ _ => s = false
  | S754_nan => False
  end.

Definition is_minus (c : ascii) : bool := Ascii.eqb c "-".

(** The value after the [kW] normalisation. *)
Definition normalized (data0 : string) (x : float) : float :=
  if contains "kW" data0 then fmul x (float_of_Z 1000) else x.

(** [cycles n w w']: from [w], [n] times over, the loop condition holds
    and the loop body runs to its end, leaving [w']. *)
Inductive cycles : nat -> World -> World -> Prop :=
| cycles_O w : cycles 0 w w
| cycles_S n w w1 w2 w3 :
    loop_condition w = (Ok true, w1) ->
    cycle w1 = (Ok tt, w2) ->
    cycles n w2 w3 ->
    cycles (S n) w w3.

(** [waits n w w']: from [w], [n] times over, the array is found offline
    and the ten minutes are slept, leaving [w']. *)
Inductive waits : nat -> World -> World -> Prop :=
| waits_O w : waits 0 w w
| waits_S n w c w1 w2 :
    get_mi_online w = (Ok c, w1) ->
    c <= 0 ->
    waits n (push (Sleep 600) w1) w2 ->
    waits (S n) w w2.

(** [emits P m]: [m] only adds events to the trace, all of them in [P]. *)
Definition emits (P : Event -> Prop) {A} (m : M A) : Prop :=
  forall w r w', m w = (r, w') ->
  exists es, trace w' = (es ++ trace w)%list /\ Forall P es.

(** The end of [run] after its decision: the last log line when the
    decision ran to its end. *)
Definition conclude (rw : PyResult (option unit) * World) : PyResult (option unit) * World :=
  match rw with
  | (Ok (Some _), w) =>
      (Ok (Some tt), push (Log INFO "Run call ending, program terminating.") w)
  | _ => rw
  end.

Definition other_than (marker : Event) (e : Event) : Prop := e <> marker.


(** A match of [number_pattern]: not empty, digits and dots only. *)
Definition is_run (r : string) : bool := nonempty r && forallb_str number_class r.

Fixpoint count_str (p : ascii -> bool) (s : string) : nat :=
  match s with
  | EmptyString => O
  | String c s' => if p c then S (count_str p s') else count_str p s'
  end.

(** A probe whose exception the scan lets through. *)
Definition probe_fatal (tag : string) (r : PyResult Response) : bool :=
  match probe_result tag r with
  | Ok _ => false
  | Raise e => negb (isinstance_ConnectionError e || isinstance_Timeout e)
  end.


(** [keeps I m]: [m] leaves a reader that satisfies [I] satisfying [I]. *)
Definition keeps (I : SolarReader -> Prop) {A} (m : M A) : Prop :=
  forall w r w', m w = (r, w') -> I (reader w) -> I (reader w').

(** The attributes set once by the constructor. *)
Definition same_config (r r' : SolarReader) : Prop :=
  _tag r' = _tag r /\
  _base_ip_range r' = _base_ip_range r /\
  _using_static_ip r' = _using_static_ip r.

Definition addressed (r : SolarReader) : Prop := nonempty (_ip_address r) = true.


(** The reader [__init__] starts from, before it has probed anything. *)
Definition initial_reader (tag base_ip_range : string) (static_ip : option string) :
  SolarReader :=
  {| _tag := tag; _base_ip_range := base_ip_range;
     _using_static_ip := match static_ip with Some ip => nonempty ip | None => false end;
     _ip_address := match static_ip with Some ip => ip | None => "" end |}.

Definition is_log (e : Event) : Prop := exists level msg, e = Log level msg.



Definition not_row (e : Event) : Prop :=
  match e with
  | UpdateRow _ _ _ => False
  | _ => True
  end.


(** An address a reader of the range [base] that began at [ip0] can
    hold: the one it began with, or a candidate of its range. *)
Definition reachable (base ip0 ip : string) : Prop :=
  ip = ip0 \/ exists i, (i < 256)%nat /\ ip = candidate base i.

(** The shape of what a run does on the network and between cycles, for
    a reader of the range [base] that began at the address [ip0]: a
    sleep lasts ten minutes; a GET with a time-out is a probe of the
    scan, for two seconds, at a candidate of the range; a GET without
    one asks for one of the two pages that are read, at an address the
    reader can hold. *)
Definition paced (base ip0 : string) (e : Event) : Prop :=
  match e with
  | Sleep secs => secs = 600
  | Get url (Some timeout) =>
      timeout = 2 /\ exists i, (i < 256)%nat /\ url = probe_url base i
  | Get url None =>
      exists ip path,
        url = "http://" ++ ip ++ path /\
        (path = "/home" \/ path = "/production") /\
        reachable base ip0 ip
  | _ => True
  end.

Definition ranged (base ip0 : string) (r : SolarReader) : Prop :=
  _base_ip_range r = base /\ reachable base ip0 (_ip_address r).

(** [acts I P m]: [m] keeps [I] of the reader and, run on a reader that
    satisfies [I], only adds events in [P] to the trace. *)
Definition acts (I : SolarReader -> Prop) (P : Event -> Prop) {A} (m : M A) : Prop :=
  forall w r w', m w = (r, w') -> I (reader w) ->
  I (reader w') /\ exists es, trace w' = (es ++ trace w)%list /\ Forall P es.

(** Neither a reading of the clock nor a row for the sheet. *)
Definition blind (e : Event) : Prop :=
  match e with
  | Now | UpdateRow _ _ _ => False
  | _ => True
  end.

(** ** Reading the monad *)

Lemma bind_ok {A B} (m : M A) (k : A -> M B) w a w' :
  m w = (Ok a, w') -> bind m k w = k a w'.
Proof. unfold bind; intros ->; reflexivity. Qed.

Lemma bind_raise {A B} (m : M A) (k : A -> M B) w e w' :
  m w = (Raise e, w') -> bind m k w = (Raise e, w').
Proof. unfold bind; intros ->; reflexivity. Qed.

Lemma bind_inv {A B} (m : M A) (k : A -> M B) w r w2 :
  bind m k w = (r, w2) ->
  (exists a w1, m w = (Ok a, w1) /\ k a w1 = (r, w2)) \/
  (exists e, m w = (Raise e, w2) /\ r = Raise e).
Proof.
  unfold bind; destruct (m w) as [[a | e] w1]; intros H.
  - left; eauto.
  - right; exists e; inversion H; subst; auto.
Qed.

Lemma extend_nil w : extend [] w = w.
Proof. destruct w; reflexivity. Qed.

Lemma extend_push es e w : extend es (push e w) = extend (es ++ [e]) w.
Proof. unfold extend, push; simpl; rewrite <- app_assoc; reflexivity. Qed.

Lemma push_extend e es w : push e (extend es w) = extend (e :: es) w.
Proof. reflexivity. Qed.

Lemma clock_push e w : clock (push e w) = S (clock w).
Proof. reflexivity. Qed.

(** ** The clock *)

(** C10: [is_past_noon] reads the clock once and answers whether the hour
    is strictly greater than 12, so the whole hour from 12:00:00 to
    12:59:59 is not past noon. *)
Theorem is_past_noon_strictly_after_12 :
  (forall w, is_past_noon w = (Ok (12 <? hour (datetime_now (clock w))), push Now w)) /\
  (forall dt, past_noon dt = true <-> 12 < hour dt) /\
  (forall m s, past_noon {| hour := 12; minute := m; second := s |} = false).
Proof.
  split; [| split].
  - intros w; reflexivity.
  - intros dt; unfold past_noon; apply Z.ltb_lt.
  - intros m s; reflexivity.
Qed.

(** ** The device locator *)

Lemma scan_step tag base i rest w :
  scan tag base (i :: rest) w =
  match probe_result tag (requests_get (clock w) (probe_url base i) (Some 2)) with
  | Ok true => (Ok (Some (candidate base i)), push (probe_event base i) w)
  | Ok false => scan tag base rest (push (probe_event base i) w)
  | Raise e =>
      if isinstance_ConnectionError e || isinstance_Timeout e
      then scan tag base rest (push (probe_event base i) w)
      else (Raise e, push (probe_event base i) w)
  end.
Proof.
  cbn [scan]; unfold bind, attempt, requests_get_, lift, probe_result, probe_url, probe_event.
  destruct (requests_get (clock w) ("http://" ++ candidate base i) (Some 2)) as [resp | e];
    [destruct (re_search tag (text resp)) as [[] | e] |];
    try destruct (isinstance_ConnectionError e || isinstance_Timeout e); reflexivity.
Qed.

Lemma scan_reader tag base l : forall w r w',
  scan tag base l w = (r, w') -> reader w' = reader w.
Proof.
  induction l as [| i l IH]; intros w r w' H.
  - inversion H; reflexivity.
  - rewrite scan_step in H.
    destruct (probe_result tag _) as [[] | e].
    + inversion H; reflexivity.
    + apply IH in H; exact H.
    + destruct (isinstance_ConnectionError e || isinstance_Timeout e).
      * apply IH in H; exact H.
      * inversion H; reflexivity.
Qed.

Lemma probe_events_snoc base a n :
  (rev (map (probe_event base) (seq (S a) n)) ++ [probe_event base a])%list =
  rev (map (probe_event base) (seq a (S n))).
Proof. reflexivity. Qed.

Lemma forallb_pointwise {A} (f g : A -> bool) (l : list A) :
  (forall x, f x = g x) -> forallb f l = forallb g l.
Proof.
  intros E; induction l as [| x l IH]; simpl; [reflexivity |].
  rewrite E, IH; reflexivity.
Qed.

Lemma forallb_seq_S (f : nat -> bool) n : forall a,
  forallb f (seq (S a) n) = forallb (fun j => f (S j)) (seq a n).
Proof.
  induction n as [| n IH]; intros a; simpl; [reflexivity |].
  rewrite IH; reflexivity.
Qed.

(** The scan over [a, a+n): when every probe misses. *)
Lemma scan_all_miss tag base n : forall a w,
  forallb (fun j => probe_miss tag (requests_get (clock w + j)%nat (probe_url base (a + j)) (Some 2)))
          (seq 0 n) = true ->
  scan tag base (seq a n) w =
  (Ok None, extend (rev (map (probe_event base) (seq a n))) w).
Proof.
  induction n as [| n IH]; intros a w H.
  - simpl; rewrite extend_nil; reflexivity.
  - change (seq a (S n)) with (a :: seq (S a) n); rewrite scan_step.
    simpl in H; apply andb_true_iff in H; destruct H as [H0 H].
    rewrite !Nat.add_0_r in H0.
    assert (Hrest : scan tag base (seq (S a) n) (push (probe_event base a) w) =
                    (Ok None, extend (rev (map (probe_event base) (a :: seq (S a) n))) w)).
    { rewrite IH.
      - rewrite extend_push; reflexivity.
      - rewrite forallb_seq_S in H.
        erewrite forallb_pointwise; [exact H |].
        intros j; cbv beta; rewrite clock_push, !Nat.add_succ_r; reflexivity. }
    unfold probe_miss in H0.
    destruct (probe_result tag _) as [[] | e]; [discriminate | exact Hrest |].
    rewrite H0; exact Hrest.
Qed.

(** The scan over [a, a+n): when probe [i] is the first that hits. *)
Lemma scan_first_hit tag base n : forall a w i,
  (i < n)%nat ->
  forallb (fun j => probe_miss tag (requests_get (clock w + j)%nat (probe_url base (a + j)) (Some 2)))
          (seq 0 i) = true ->
  probe_hit tag (requests_get (clock w + i)%nat (probe_url base (a + i)) (Some 2)) = true ->
  scan tag base (seq a n) w =
  (Ok (Some (candidate base (a + i))),
   extend (rev (map (probe_event base) (seq a (S i)))) w).
Proof.
  induction n as [| n IH]; intros a w i Hi Hmiss Hhit; [lia |].
  change (seq a (S n)) with (a :: seq (S a) n); rewrite scan_step.
  destruct i as [| i].
  - rewrite !Nat.add_0_r in *; unfold probe_hit in Hhit.
    destruct (probe_result tag _) as [[] | e]; [reflexivity | discriminate | discriminate].
  - simpl in Hmiss; apply andb_true_iff in Hmiss; destruct Hmiss as [H0 Hmiss].
    rewrite !Nat.add_0_r in H0.
    assert (Hrest : scan tag base (seq (S a) n) (push (probe_event base a) w) =
                    (Ok (Some (candidate base (a + S i))),
                     extend (rev (map (probe_event base) (seq a (S (S i))))) w)).
    { rewrite (IH (S a) _ i).
      - rewrite extend_push, Nat.add_succ_r; reflexivity.
      - lia.
      - rewrite forallb_seq_S in Hmiss.
        erewrite forallb_pointwise; [exact Hmiss |].
        intros j; cbv beta; rewrite clock_push, !Nat.add_succ_r; reflexivity.
      - rewrite clock_push; rewrite !Nat.add_succ_r in Hhit; exact Hhit. }
    unfold probe_miss in H0.
    destruct (probe_result tag _) as [[] | e]; [discriminate | exact Hrest |].
    rewrite H0; exact Hrest.
Qed.

(** The scan over [a, a+n): when probe [i] is the first that raises
    something the [except] clause does not name. *)
Lemma scan_first_fatal tag base n : forall a w i e,
  (i < n)%nat ->
  forallb (fun j => probe_miss tag (requests_get (clock w + j)%nat (probe_url base (a + j)) (Some 2)))
          (seq 0 i) = true ->
  probe_result tag (requests_get (clock w + i)%nat (probe_url base (a + i)) (Some 2)) = Raise e ->
  isinstance_ConnectionError e || isinstance_Timeout e = false ->
  scan tag base (seq a n) w =
  (Raise e, extend (rev (map (probe_event base) (seq a (S i)))) w).
Proof.
  induction n as [| n IH]; intros a w i e Hi Hmiss Hres He; [lia |].
  change (seq a (S n)) with (a :: seq (S a) n); rewrite scan_step.
  destruct i as [| i].
  - rewrite !Nat.add_0_r in *; rewrite Hres, He; reflexivity.
  - simpl in Hmiss; apply andb_true_iff in Hmiss; destruct Hmiss as [H0 Hmiss].
    rewrite !Nat.add_0_r in H0.
    assert (Hrest : scan tag base (seq (S a) n) (push (probe_event base a) w) =
                    (Raise e, extend (rev (map (probe_event base) (seq a (S (S i))))) w)).
    { rewrite (IH (S a) _ i e).
      - rewrite extend_push; reflexivity.
      - lia.
      - rewrite forallb_seq_S in Hmiss.
        erewrite forallb_pointwise; [exact Hmiss |].
        intros j; cbv beta; rewrite clock_push, !Nat.add_succ_r; reflexivity.
      - rewrite clock_push; rewrite !Nat.add_succ_r in Hres; exact Hres.
      - exact He. }
    unfold probe_miss in H0.
    destruct (probe_result tag _) as [[] | e0]; [discriminate | exact Hrest |].
    rewrite H0; exact Hrest.
Qed.

(** C6, as the code has it: in scan mode [get_ip_address] probes
    [base.0], [base.1], ... in ascending order, each with [timeout=2] and
    at most 256 of them; a candidate that answers without the tag, or
    whose probe raises a connection error or a timeout, is passed over.
    The first candidate whose body matches the tag is returned when all
    candidates before it were passed over, and [None] when all 256 were;
    any other exception that a probe raises, in its GET or in
    [re.search], ends the scan at that candidate and is raised. *)
Theorem get_ip_address_scans_in_order : forall w,
  _using_static_ip (reader w) = false ->
  let tag := _tag (reader w) in
  let base := _base_ip_range (reader w) in
  let outcome j := requests_get (clock w + j)%nat (probe_url base j) (Some 2) in
  (forall i, (i < 256)%nat ->
     forallb (fun j => probe_miss tag (outcome j)) (seq 0 i) = true ->
     probe_hit tag (outcome i) = true ->
     get_ip_address w =
     (Ok (Some (candidate base i)),
      extend (rev (map (probe_event base) (seq 0 (S i)))) w)) /\
  (forallb (fun j => probe_miss tag (outcome j)) (seq 0 256) = true ->
     get_ip_address w =
     (Ok None, extend (rev (map (probe_event base) (seq 0 256))) w)) /\
  (forall i e, (i < 256)%nat ->
     forallb (fun j => probe_miss tag (outcome j)) (seq 0 i) = true ->
     probe_result tag (outcome i) = Raise e ->
     isinstance_ConnectionError e || isinstance_Timeout e = false ->
     get_ip_address w =
     (Raise e, extend (rev (map (probe_event base) (seq 0 (S i)))) w)).
Proof.
  intros w Hscan tag base outcome.
  assert (E : get_ip_address w = scan tag base (seq 0 256) w).
  { unfold get_ip_address, bind, self; rewrite Hscan; reflexivity. }
  split; [| split].
  - intros i Hi Hmiss Hhit; rewrite E.
    apply (scan_first_hit tag base (n := 256) 0 w (i := i)); assumption.
  - intros Hmiss; rewrite E.
    apply (scan_all_miss tag base 256 0 w); assumption.
  - intros i e Hi Hmiss Hres He; rewrite E.
    apply (scan_first_fatal tag base (n := 256) 0 w (i := i)); assumption.
Qed.

(** ** The resilient client *)

Lemma get_ip_address_reader w r w' :
  get_ip_address w = (r, w') -> reader w' = reader w.
Proof.
  unfold get_ip_address, bind, self.
  destruct (_using_static_ip (reader w)).
  - intros H; inversion H; reflexivity.
  - apply scan_reader.
Qed.

Lemma get_response_static path w :
  _using_static_ip (reader w) = true ->
  get_response path w =
  (requests_get (clock w) ("http://" ++ _ip_address (reader w) ++ path) None,
   push (Get ("http://" ++ _ip_address (reader w) ++ path) None) w).
Proof.
  intros Hstatic; unfold get_response, bind, self, attempt, requests_get_.
  destruct (requests_get (clock w) ("http://" ++ _ip_address (reader w) ++ path) None)
    as [resp | e]; [reflexivity |].
  rewrite Hstatic; destruct (isinstance_ConnectionError e); reflexivity.
Qed.

(** A reader built with a static address is in static mode, at that
    address. *)
Lemma SolarReader_init_static tag base ip tr w :
  nonempty ip = true ->
  SolarReader_init tag base (Some ip) tr = (Ok tt, w) ->
  _using_static_ip (reader w) = true /\ _ip_address (reader w) = ip.
Proof.
  intros Hip; unfold SolarReader_init; rewrite Hip.
  set (w0 := {| reader := _; trace := tr |}).
  unfold bind at 1, bind at 1, solar_panels_accessible, bind at 1, log at 1, emit.
  unfold bind at 1, attempt.
  rewrite get_response_static by reflexivity.
  destruct (requests_get _ _ None) as [resp | e].
  - unfold bind at 1, log at 1, emit, ret at 1.
    destruct (status_code resp =? 200); [| discriminate].
    unfold ret at 1, bind at 1, self.
    cbn [reader push w0 _ip_address]; rewrite Hip.
    unfold log, emit; intros H; inversion H; subst; split; reflexivity.
  - destruct (isinstance_ConnectionError e); discriminate.
Qed.

(** C8: in static-address mode the locator answers with the configured
    address without probing anything, and [get_response] issues exactly
    one GET, hands back its outcome (a connection failure is raised as it
    came) and leaves the reader, its address included, as it was. *)
Theorem static_mode_never_relocates : forall path w,
  _using_static_ip (reader w) = true ->
  let url := "http://" ++ _ip_address (reader w) ++ path in
  get_ip_address w = (Ok (Some (_ip_address (reader w))), w) /\
  get_response path w = (requests_get (clock w) url None, push (Get url None) w) /\
  reader (snd (get_response path w)) = reader w.
Proof.
  intros path w Hstatic url.
  pose proof (get_response_static path w Hstatic) as E; fold url in E.
  split; [| split].
  - unfold get_ip_address, bind, self; rewrite Hstatic; reflexivity.
  - exact E.
  - rewrite E; reflexivity.
Qed.

(** C5: in scan mode, when the first GET raises a connection error the
    locator is run once, from the world right after that GET.  If it
    yields an address, the change is logged, one more GET goes to the new
    address and its outcome is the outcome of [get_response], after which
    the reader is the reader it was with the new address in place of the
    old one; if it yields [None], [get_response] raises [RuntimeError]
    with no further GET and the reader unchanged. *)
Theorem scan_mode_resolves_once_and_retries_once : forall path w e,
  _using_static_ip (reader w) = false ->
  requests_get (clock w) ("http://" ++ _ip_address (reader w) ++ path) None = Raise e ->
  isinstance_ConnectionError e = true ->
  let w1 := push (Get ("http://" ++ _ip_address (reader w) ++ path) None) w in
  (forall new_ip w2,
     get_ip_address w1 = (Ok (Some new_ip), w2) ->
     let w3 := push (Log INFO ("IP address updated to " ++ new_ip ++ ".")) (with_ip new_ip w2) in
     let url := "http://" ++ new_ip ++ path in
     get_response path w = (requests_get (clock w3) url None, push (Get url None) w3) /\
     reader (snd (get_response path w)) =
     {| _tag := _tag (reader w);
        _base_ip_range := _base_ip_range (reader w);
        _using_static_ip := false;
        _ip_address := new_ip |}) /\
  (forall w2,
     get_ip_address w1 = (Ok None, w2) ->
     get_response path w = (Raise (RuntimeError "A seemingly valid IP address failed."), w2) /\
     reader w2 = reader w).
Proof.
  intros path w e Hscan Hget He w1.
  assert (E : get_response path w =
              match get_ip_address w1 with
              | (Ok (Some new_ip), w2) =>
                  let w3 := push (Log INFO ("IP address updated to " ++ new_ip ++ "."))
                                 (with_ip new_ip w2) in
                  (requests_get (clock w3) ("http://" ++ new_ip ++ path) None,
                   push (Get ("http://" ++ new_ip ++ path) None) w3)
              | (Ok None, w2) =>
                  (Raise (RuntimeError "A seemingly valid IP address failed."), w2)
              | (Raise e', w2) => (Raise e', w2)
              end).
  { unfold get_response, bind at 1 2, self, attempt, requests_get_ at 1.
    rewrite Hget, He, Hscan; fold w1.
    unfold bind at 1; destruct (get_ip_address w1) as [[[new_ip |] | e'] w2]; reflexivity. }
  split.
  - intros new_ip w2 H w3 url; rewrite E, H; split; [reflexivity |].
    apply get_ip_address_reader in H.
    cbn [snd push with_ip reader]; rewrite H; cbn [w1 push reader].
    rewrite Hscan; reflexivity.
  - intros w2 H; split.
    + rewrite E, H; reflexivity.
    + apply get_ip_address_reader in H; exact H.
Qed.

(** ** Numbers read from text *)

(** *** Rounding keeps the sign *)

Lemma shr_1_nonneg mrs : 0 <= shr_m mrs -> 0 <= shr_m (shr_1 mrs).
Proof.
  destruct mrs as [m r s]; simpl.
  destruct m as [| [p | p |] | p]; simpl; intros H; lia.
Qed.

Lemma iter_pos_shr_1_nonneg p : forall mrs,
  0 <= shr_m mrs -> 0 <= shr_m (iter_pos shr_1 p mrs).
Proof.
  induction p as [p IH | p IH |]; intros mrs H; simpl.
  - apply IH, IH, shr_1_nonneg, H.
  - apply IH, IH, H.
  - apply shr_1_nonneg, H.
Qed.

Lemma shr_fexp_nonneg m e l :
  0 <= m -> 0 <= shr_m (fst (shr_fexp prec emax m e l)).
Proof.
  intros H; unfold shr_fexp, shr.
  assert (H0 : 0 <= shr_m (shr_record_of_loc m l)).
  { destruct l as [| []]; exact H. }
  destruct (fexp prec emax (Zdigits2 m + e) - e) as [| p | p]; simpl; try exact H0.
  apply iter_pos_shr_1_nonneg, H0.
Qed.

Lemma round_nearest_even_nonneg m l : 0 <= m -> 0 <= round_nearest_even m l.
Proof.
  intros H; destruct l as [| []]; simpl; try lia.
  destruct (Z.even m); lia.
Qed.

Lemma positive_or_zero_ge0 x : positive_or_zero x -> float_ge0 x = true.
Proof. destruct x as [s | s | | s m e]; simpl; intros H; subst; try reflexivity; contradiction. Qed.

Lemma binary_round_aux_nonneg m e l :
  0 <= m -> positive_or_zero (binary_round_aux prec emax false m e l).
Proof.
  intros H; unfold binary_round_aux.
  pose proof (shr_fexp_nonneg e l H) as H1.
  destruct (shr_fexp prec emax m e l) as [mrs1 e1]; simpl in H1.
  pose proof (shr_fexp_nonneg e1 loc_Exact
                (round_nearest_even_nonneg (loc_of_shr_record mrs1) H1)) as H2.
  destruct (shr_fexp prec emax (round_nearest_even (shr_m mrs1) (loc_of_shr_record mrs1))
                     e1 loc_Exact) as [mrs2 e2]; simpl in H2.
  destruct (shr_m mrs2) as [| q | q].
  - exact I.
  - destruct (Z.leb e2 _); reflexivity.
  - lia.
Qed.

Lemma float_of_decimal_nonneg n k : positive_or_zero (float_of_decimal n k).
Proof.
  unfold float_of_decimal; destruct n as [| p | p]; try exact I.
  unfold SFdiv_core_binary.
  set (e' := Z.min _ _); set (m' := match 0 - 0 - e' with Z0 => _ | Zpos _ => _ | Zneg _ => _ end).
  assert (Hm : 0 <= m').
  { unfold m'; destruct (0 - 0 - e'); try lia.
    apply Z.shiftl_nonneg; lia. }
  assert (Hd : 0 < 10 ^ Z.of_nat k) by (apply Z.pow_pos_nonneg; lia).
  pose proof (Z.div_pos m' (10 ^ Z.of_nat k) Hm Hd) as Hq.
  unfold Z.div in Hq.
  destruct (Z.div_eucl m' (10 ^ Z.of_nat k)) as [q r].
  apply binary_round_aux_nonneg, Hq.
Qed.

Lemma float_of_str_nonneg s x : float_of_str s = Some x -> positive_or_zero x.
Proof.
  unfold float_of_str; destruct (split_dot s) as [ip [fp |]].
  - destruct (_ && _ && _); [| discriminate].
    intros H; inversion H; apply float_of_decimal_nonneg.
  - destruct (_ && _); [| discriminate].
    intros H; inversion H; apply float_of_decimal_nonneg.
Qed.

Lemma float_of_Z_1000 : float_of_Z 1000 = S754_finite false 8796093022208000 (-43).
Proof. reflexivity. Qed.

Lemma fmul_1000_nonneg x : positive_or_zero x -> positive_or_zero (fmul x (float_of_Z 1000)).
Proof.
  rewrite float_of_Z_1000; destruct x as [s | s | | s m e]; simpl; intros H; subst; auto.
  apply binary_round_aux_nonneg; lia.
Qed.

Lemma int_of_float_nonneg x z :
  positive_or_zero x -> int_of_float x = Ok z -> 0 <= z.
Proof.
  destruct x as [s | s | | s m e]; simpl; intros H E; try discriminate.
  - inversion E; lia.
  - subst; inversion E; simpl. apply Z.shiftl_nonneg; lia.
Qed.


(** *** The runs of [number_pattern] *)

Lemma findall_no_number s :
  existsb_str number_class s = false -> number_pattern_findall s = [].
Proof.
  induction s as [| c s IH]; simpl; [reflexivity |].
  intros H; apply orb_false_iff in H; destruct H as [Hc Hs].
  rewrite Hc; apply IH, Hs.
Qed.

Lemma findall_some_number s :
  existsb_str number_class s = true -> number_pattern_findall s <> [].
Proof.
  induction s as [| c s IH]; simpl; [discriminate |].
  destruct (number_class c); simpl.
  - intros _; destruct s as [| c' s']; [discriminate |].
    destruct (number_class c'); [| discriminate].
    destruct (number_pattern_findall (String c' s')); discriminate.
  - exact IH.
Qed.

(** No run holds a character the text does not hold. *)
Lemma findall_runs_within (p : ascii -> bool) s :
  existsb_str p s = false ->
  Forall (fun r => existsb_str p r = false) (number_pattern_findall s).
Proof.
  induction s as [| c s IH]; [constructor |].
  intros H; simpl in H; apply orb_false_iff in H; destruct H as [Hc Hs].
  specialize (IH Hs).
  cbn [number_pattern_findall].
  destruct (number_class c); [| exact IH].
  assert (H1 : existsb_str p (String c EmptyString) = false)
    by (simpl; rewrite Hc; reflexivity).
  destruct s as [| c' s']; [constructor; [exact H1 | constructor] |].
  destruct (number_class c'); [| constructor; [exact H1 | exact IH]].
  destruct (number_pattern_findall (String c' s')) as [| r rs].
  - constructor; [exact H1 | constructor].
  - inversion IH; subst; constructor; [| assumption].
    simpl; rewrite Hc; assumption.
Qed.

Lemma no_digit_all_digits s :
  existsb_str is_digit s = false -> forallb_str is_digit s = true -> s = EmptyString.
Proof.
  destruct s as [| c s]; [reflexivity |]; simpl.
  destruct (is_digit c); simpl; discriminate.
Qed.

Lemma split_dot_within (p : ascii -> bool) s : forall ip ofp,
  existsb_str p s = false ->
  split_dot s = (ip, ofp) ->
  existsb_str p ip = false /\
  match ofp with Some fp => existsb_str p fp = false | None => True end.
Proof.
  induction s as [| c s IH]; intros ip ofp H E; simpl in *.
  - inversion E; subst; auto.
  - apply orb_false_iff in H; destruct H as [Hc Hs].
    destruct (is_dot c).
    + inversion E; subst; auto.
    + destruct (split_dot s) as [a b]; inversion E; subst.
      destruct (IH a ofp Hs eq_refl) as [Ha Hb]; simpl; rewrite Hc; auto.
Qed.

(** [float] needs a digit. *)
Lemma float_of_str_no_digit s :
  existsb_str is_digit s = false -> float_of_str s = None.
Proof.
  intros H; unfold float_of_str.
  destruct (split_dot s) as [ip ofp] eqn:E.
  destruct (split_dot_within is_digit s H E) as [Hip Hfp].
  destruct ofp as [fp |].
  - destruct (forallb_str is_digit ip) eqn:Dip; [| rewrite andb_false_r; reflexivity].
    destruct (forallb_str is_digit fp) eqn:Dfp; [| rewrite andb_false_r; reflexivity].
    rewrite (no_digit_all_digits ip Hip Dip), (no_digit_all_digits fp Hfp Dfp); reflexivity.
  - destruct (forallb_str is_digit ip) eqn:Dip; [| rewrite andb_false_r; reflexivity].
    rewrite (no_digit_all_digits ip Hip Dip); reflexivity.
Qed.

Lemma number_class_no_digit_no_dot s :
  existsb_str is_digit s = false -> existsb_str is_dot s = false ->
  existsb_str number_class s = false.
Proof.
  induction s as [| c s IH]; simpl; [reflexivity |].
  intros H1 H2; apply orb_false_iff in H1, H2.
  destruct H1 as [Hd H1], H2 as [Hdot H2]; unfold number_class at 1.
  rewrite Hd, Hdot; simpl; apply IH; assumption.
Qed.

Lemma number_class_dot s :
  existsb_str is_dot s = true -> existsb_str number_class s = true.
Proof.
  induction s as [| c s IH]; simpl; [discriminate |].
  unfold number_class at 1; destruct (is_dot c); simpl.
  - rewrite orb_true_r; reflexivity.
  - intros H; rewrite (IH H), orb_true_r; reflexivity.
Qed.

(** *** [int] of a string *)

Lemma int_of_str_cases s :
  int_of_str s =
  match strip s with
  | EmptyString => None
  | String c r =>
      if is_minus c then option_map Z.opp (int_digits false 0 r)
      else if Ascii.eqb c "+" then int_digits false 0 r
      else int_digits false 0 (String c r)
  end.
Proof.
  unfold int_of_str; destruct (strip s) as [| c r]; [reflexivity |].
  destruct c as [[] [] [] [] [] [] [] []]; reflexivity.
Qed.

Lemma is_digit_val c : is_digit c = true -> 0 <= digit_val c.
Proof.
  unfold is_digit, digit_val; intros H; apply andb_true_iff in H; destruct H as [H _].
  apply Nat.leb_le in H; lia.
Qed.

Lemma int_digits_nonneg s : forall b acc n,
  0 <= acc -> int_digits b acc s = Some n -> 0 <= n.
Proof.
  induction s as [| c s IH]; intros b acc n Hacc H; cbn [int_digits] in H.
  - destruct b; inversion H; subst; assumption.
  - destruct (is_digit c) eqn:D.
    + apply IH in H; [exact H |]. pose proof (is_digit_val c D); lia.
    + destruct (Ascii.eqb c "_" && b); [| discriminate].
      apply IH in H; assumption.
Qed.

Lemma lstrip_within (p : ascii -> bool) s :
  existsb_str p s = false -> existsb_str p (lstrip s) = false.
Proof.
  induction s as [| c s IH]; simpl; [reflexivity |].
  intros H; destruct (is_space c); [| exact H].
  apply orb_false_iff in H; apply IH, H.
Qed.

Lemma rstrip_within (p : ascii -> bool) s :
  existsb_str p s = false -> existsb_str p (rstrip s) = false.
Proof.
  induction s as [| c s IH]; simpl; [reflexivity |].
  intros H; apply orb_false_iff in H; destruct H as [Hc Hs].
  specialize (IH Hs).
  destruct (rstrip s) as [| c' r].
  - destruct (is_space c); simpl; [reflexivity | rewrite Hc; reflexivity].
  - simpl in *; rewrite Hc; exact IH.
Qed.

Lemma int_of_str_nonneg s n :
  existsb_str is_minus s = false -> int_of_str s = Some n -> 0 <= n.
Proof.
  intros Hm; rewrite int_of_str_cases.
  pose proof (rstrip_within is_minus _ (lstrip_within is_minus s Hm)) as H.
  fold (strip s) in H.
  destruct (strip s) as [| c r]; [discriminate |].
  simpl in H; apply orb_false_iff in H; destruct H as [Hc _]; rewrite Hc.
  destruct (Ascii.eqb c "+"); apply int_digits_nonneg; lia.
Qed.

(** ** The metric extractor *)

Lemma wh_of_text_run data0 m0 rest w :
  number_pattern_findall data0 = m0 :: rest ->
  wh_of_text data0 w =
  match float_of_str m0 with
  | Some x => (int_of_float (normalized data0 x), w)
  | None => (Ok 0, push (Log ERROR "Couldn't convert to float") w)
  end.
Proof.
  intros E; unfold wh_of_text; rewrite E.
  cbv beta iota delta [bind item0 ret].
  destruct (float_of_str m0); reflexivity.
Qed.

Lemma watts_of_text_run data0 m0 rest w :
  number_pattern_findall data0 = m0 :: rest ->
  watts_of_text data0 w =
  match float_of_str m0 with
  | Some x => (Ok (Float (normalized data0 x)), w)
  | None => (Ok (Int 0), push (Log ERROR "Couldn't convert to float") w)
  end.
Proof.
  intros E; unfold watts_of_text; rewrite E.
  cbv beta iota delta [bind item0 ret].
  destruct (float_of_str m0); reflexivity.
Qed.

Lemma wh_of_text_no_run data0 w :
  number_pattern_findall data0 = [] -> wh_of_text data0 w = (Raise IndexError, w).
Proof. intros E; unfold wh_of_text; rewrite E; reflexivity. Qed.

Lemma watts_of_text_no_run data0 w :
  number_pattern_findall data0 = [] -> watts_of_text data0 w = (Raise IndexError, w).
Proof. intros E; unfold watts_of_text; rewrite E; reflexivity. Qed.


(** C2, as the code has it: on a text without any digit the two
    extractions return 0, with the failure logged, only when the text
    holds a dot; without a dot [findall] is empty and [match[0]] raises
    [IndexError], which [except ValueError] does not catch. *)
Theorem extraction_of_text_without_digit : forall data0 w,
  existsb_str is_digit data0 = false ->
  (existsb_str is_dot data0 = true ->
     wh_of_text data0 w = (Ok 0, push (Log ERROR "Couldn't convert to float") w) /\
     watts_of_text data0 w = (Ok (Int 0), push (Log ERROR "Couldn't convert to float") w)) /\
  (existsb_str is_dot data0 = false ->
     wh_of_text data0 w = (Raise IndexError, w) /\
     watts_of_text data0 w = (Raise IndexError, w)).
Proof.
  intros data0 w Hd; split; intros Hdot.
  - pose proof (findall_some_number data0 (number_class_dot data0 Hdot)) as Hne.
    pose proof (findall_runs_within is_digit data0 Hd) as Hruns.
    destruct (number_pattern_findall data0) as [| m0 rest] eqn:E; [contradiction |].
    inversion Hruns as [| ? ? Hm0 _]; subst.
    rewrite (wh_of_text_run _ w E), (watts_of_text_run _ w E),
      (float_of_str_no_digit m0 Hm0); split; reflexivity.
  - pose proof (findall_no_number data0 (number_class_no_digit_no_dot data0 Hd Hdot)) as E.
    split; [apply wh_of_text_no_run | apply watts_of_text_no_run]; exact E.
Qed.

Lemma wh_of_text_nonneg data0 w z w' :
  wh_of_text data0 w = (Ok z, w') -> 0 <= z.
Proof.
  destruct (number_pattern_findall data0) as [| m0 rest] eqn:E.
  - rewrite (wh_of_text_no_run _ w E); discriminate.
  - rewrite (wh_of_text_run _ w E).
    destruct (float_of_str m0) as [x |] eqn:F; intros H; inversion H; [| lia].
    apply (@int_of_float_nonneg (normalized data0 x)); [| assumption].
    pose proof (float_of_str_nonneg m0 F) as Hx.
    unfold normalized; destruct (contains "kW" data0); [apply fmul_1000_nonneg |]; exact Hx.
Qed.

Lemma watts_of_text_nonneg data0 w v w' :
  watts_of_text data0 w = (Ok v, w') -> num_ge0 v = true.
Proof.
  destruct (number_pattern_findall data0) as [| m0 rest] eqn:E.
  - rewrite (watts_of_text_no_run _ w E); discriminate.
  - rewrite (watts_of_text_run _ w E).
    destruct (float_of_str m0) as [x |] eqn:F; intros H; inversion H; [| reflexivity].
    simpl; apply positive_or_zero_ge0.
    pose proof (float_of_str_nonneg m0 F) as Hx.
    unfold normalized; destruct (contains "kW" data0); [apply fmul_1000_nonneg |]; exact Hx.
Qed.

(** What a successful run of a sequence tells about its last step. *)
Lemma bind_ok_inv {A B} (m : M A) (k : A -> M B) w b w2 :
  bind m k w = (Ok b, w2) ->
  exists a w1, m w = (Ok a, w1) /\ k a w1 = (Ok b, w2).
Proof.
  intros H; apply bind_inv in H; destruct H as [H | (e & _ & H)]; [exact H | discriminate].
Qed.

Lemma mi_of_text_ok data0 w n w' :
  mi_of_text data0 w = (Ok n, w') -> int_of_str data0 = Some n.
Proof.
  unfold mi_of_text; destruct (int_of_str data0); intros H; inversion H; reflexivity.
Qed.

(** C9, as the code has it: the energy is an integer >= 0 and the power a
    number >= 0 whenever they are returned; the inverter count is
    [int(text)] of the first text node its selector finds on the [/home]
    page, as it stands, >= 0 whenever that text holds no minus sign. *)
Theorem extracted_values_nonnegative :
  (forall w z w', get_wh_production w = (Ok z, w') -> 0 <= z) /\
  (forall w v w', get_current_watt_production w = (Ok v, w') -> num_ge0 v = true) /\
  (forall w n w',
     get_mi_online w = (Ok n, w') ->
     exists page w1 data0 rest,
       get_response "/home" (push (Log INFO "Determining current solar cell status...") w) =
       (Ok page, w1) /\
       xpath (text page) "/html/body/table/tr/td[2]/table/tr[5]/td[2]/text()" =
       Ok (data0 :: rest) /\
       int_of_str data0 = Some n /\
       (existsb_str is_minus data0 = false -> 0 <= n)).
Proof.
  split; [| split].
  - intros w z w' H; unfold get_wh_production in H.
    apply bind_ok_inv in H; destruct H as (page & w1 & _ & H).
    apply bind_ok_inv in H; destruct H as (data & w2 & _ & H).
    apply bind_ok_inv in H; destruct H as (data0 & w3 & _ & H).
    apply wh_of_text_nonneg in H; exact H.
  - intros w v w' H; unfold get_current_watt_production in H.
    apply bind_ok_inv in H; destruct H as (page & w1 & _ & H).
    apply bind_ok_inv in H; destruct H as (data & w2 & _ & H).
    apply bind_ok_inv in H; destruct H as (data0 & w3 & _ & H).
    apply watts_of_text_nonneg in H; exact H.
  - intros w n w' H; unfold get_mi_online in H.
    apply bind_ok_inv in H; destruct H as ([] & w0 & H0 & H).
    inversion H0; subst w0; clear H0.
    apply bind_ok_inv in H; destruct H as (page & w1 & Hpage & H).
    apply bind_ok_inv in H; destruct H as (data & w2 & Hdata & H).
    apply bind_ok_inv in H; destruct H as (data0 & w3 & Hitem & H).
    apply bind_ok_inv in H; destruct H as (mi & w4 & Hmi & H).
    apply bind_ok_inv in H; destruct H as ([] & w5 & _ & H).
    inversion H; subst.
    unfold lift in Hdata; inversion Hdata; subst.
    destruct data as [| d rest]; [discriminate |].
    inversion Hitem; subst.
    apply mi_of_text_ok in Hmi.
    exists page; eexists; exists data0, rest.
    split; [exact Hpage | split; [assumption | split; [exact Hmi |]]].
    intros Hm; apply (int_of_str_nonneg data0 Hm Hmi).
Qed.

(** ** The polling state machine *)

Lemma is_online_count w n w1 :
  get_mi_online w = (Ok n, w1) -> is_online w = (Ok (0 <? n), w1).
Proof. intros H; unfold is_online; erewrite bind_ok by exact H; reflexivity. Qed.

Lemma is_online_raise w e w1 :
  get_mi_online w = (Raise e, w1) -> is_online w = (Raise e, w1).
Proof. intros H; unfold is_online; erewrite bind_raise by exact H; reflexivity. Qed.

Lemma loop_condition_count w n w1 :
  get_mi_online w = (Ok n, w1) ->
  loop_condition w =
  if 0 <? n then (Ok true, w1)
  else (Ok (negb (past_noon (datetime_now (clock w1)))), push Now w1).
Proof.
  intros H; unfold loop_condition; erewrite bind_ok by exact (is_online_count w H).
  destruct (0 <? n); reflexivity.
Qed.

Lemma loop_condition_raise w e w1 :
  get_mi_online w = (Raise e, w1) -> loop_condition w = (Raise e, w1).
Proof.
  intros H; unfold loop_condition; erewrite bind_raise by exact (is_online_raise w H).
  reflexivity.
Qed.

Lemma loop_condition_exit w w' :
  loop_condition w = (Ok false, w') <->
  exists n w1, get_mi_online w = (Ok n, w1) /\ n <= 0 /\
               12 < hour (datetime_now (clock w1)) /\ w' = push Now w1.
Proof.
  split.
  - destruct (get_mi_online w) as [[n | e] w1] eqn:G.
    + rewrite (loop_condition_count w G).
      destruct (0 <? n) eqn:Hn; [discriminate |].
      destruct (past_noon (datetime_now (clock w1))) eqn:Hp; [| discriminate].
      intros H; inversion H; exists n, w1.
      apply Z.ltb_ge in Hn; apply Z.ltb_lt in Hp; auto.
    + rewrite (loop_condition_raise w G); discriminate.
  - intros (n & w1 & G & Hn & Hp & ->).
    rewrite (loop_condition_count w G).
    apply Z.ltb_ge in Hn; rewrite Hn.
    apply Z.ltb_lt in Hp; unfold past_noon; rewrite Hp; reflexivity.
Qed.

Lemma main_loop_while_S fuel w :
  main_loop_while (S fuel) w =
  match loop_condition w with
  | (Ok true, w1) =>
      match cycle w1 with
      | (Ok _, w2) => main_loop_while fuel w2
      | (Raise e, w2) => (Raise e, w2)
      end
  | (Ok false, w1) => (Ok (Some tt), w1)
  | (Raise e, w1) => (Raise e, w1)
  end.
Proof.
  cbn [main_loop_while]; unfold bind at 1.
  destruct (loop_condition w) as [[[] | e] w1]; reflexivity.
Qed.

Lemma main_loop_while_exit fuel : forall w w',
  main_loop_while fuel w = (Ok (Some tt), w') <->
  exists n wn, (n < fuel)%nat /\ cycles n w wn /\ loop_condition wn = (Ok false, w').
Proof.
  induction fuel as [| fuel IH]; intros w w'.
  - split; [discriminate | intros (n & _ & Hn & _); lia].
  - rewrite main_loop_while_S; split.
    + destruct (loop_condition w) as [[[] | e] w1] eqn:C; try discriminate.
      * destruct (cycle w1) as [[[] | e] w2] eqn:B; try discriminate.
        intros H; apply IH in H; destruct H as (n & wn & Hn & Hc & Hx).
        exists (S n), wn; split; [lia | split; [| exact Hx]].
        eapply cycles_S; eassumption.
      * intros H; inversion H; subst.
        exists 0%nat, w; split; [lia | split; [constructor | exact C]].
    + intros (n & wn & Hn & Hc & Hx).
      inversion Hc as [? | n' ? w1 w2 ? C B Hc']; subst.
      * rewrite Hx; reflexivity.
      * rewrite C, B; apply IH; exists n', wn; split; [lia | auto].
Qed.

(** C1, as the code has it: the check of the loop condition ends the loop
    exactly when the count read by [get_mi_online] is not above 0 and the
    clock read after it is past noon; [main_loop] leaves its loop, given
    fuel for it, exactly at the first check that does so, every check and
    body before it having run to its end; and when the clock is not past
    noon the check keeps the loop going whatever count is read. *)
Theorem main_loop_exit_condition :
  (forall w w',
     loop_condition w = (Ok false, w') <->
     exists n w1, get_mi_online w = (Ok n, w1) /\ n <= 0 /\
                  12 < hour (datetime_now (clock w1)) /\ w' = push Now w1) /\
  (forall fuel w w',
     main_loop_while fuel w = (Ok (Some tt), w') <->
     exists n wn, (n < fuel)%nat /\ cycles n w wn /\
                  loop_condition wn = (Ok false, w')) /\
  (forall w n w1,
     get_mi_online w = (Ok n, w1) ->
     hour (datetime_now (clock w1)) <= 12 ->
     exists w', loop_condition w = (Ok true, w')).
Proof.
  split; [exact loop_condition_exit | split; [intros; apply main_loop_while_exit |]].
  intros w n w1 G Hh; rewrite (loop_condition_count w G).
  destruct (0 <? n); [eauto |].
  apply Z.ltb_ge in Hh; unfold past_noon; rewrite Hh; eauto.
Qed.

(** The [try] block with its [except] and [finally]: whatever [poll]
    does, the cycle goes on to its sleep. *)
Lemma cycle_afternoon w :
  past_noon (datetime_now (clock w)) = true ->
  exists w', cycle w = (Ok tt, push (Sleep 600) w').
Proof.
  intros Hp; unfold cycle, bind at 1, is_past_noon, bind at 1, now, ret at 1.
  rewrite Hp; cbn [negb]; unfold bind at 1, ret at 1.
  unfold bind at 1, attempt.
  destruct (poll (push Now w)) as [[[] | e] w1]; unfold bind, ret, log, time_sleep, emit; eauto.
Qed.

(** C3, where the code departs from it: the inverter-count read of the
    loop condition is outside the [try] block, so when it raises, the
    exception leaves [main_loop] at once, with no log and no sleep; only
    what the [try] block itself raises is caught. *)
Theorem main_loop_dies_when_condition_read_fails : forall fuel w e w1,
  get_mi_online w = (Raise e, w1) ->
  loop_condition w = (Raise e, w1) /\
  main_loop_while (S fuel) w = (Raise e, w1).
Proof.
  intros fuel w e w1 G.
  pose proof (loop_condition_raise w G) as C.
  split; [exact C |].
  rewrite main_loop_while_S, C; reflexivity.
Qed.

(** *** What a computation adds to the trace *)

Lemma emits_silent P {A} (m : M A) :
  (forall w r w', m w = (r, w') -> trace w' = trace w) -> emits P m.
Proof. intros H w r w' E; exists []; split; [apply (H _ _ _ E) | constructor]. Qed.

Lemma emits_ret P {A} (a : A) : emits P (ret a).
Proof. apply emits_silent; intros w r w' E; inversion E; reflexivity. Qed.

Lemma emits_raise P {A} (e : exn) : emits P (@raise A e).
Proof. apply emits_silent; intros w r w' E; inversion E; reflexivity. Qed.

Lemma emits_lift P {A} (x : PyResult A) : emits P (lift x).
Proof. apply emits_silent; intros w r w' E; inversion E; reflexivity. Qed.

Lemma emits_self P : emits P self.
Proof. apply emits_silent; intros w r w' E; inversion E; reflexivity. Qed.

Lemma emits_set_ip_address P ip : emits P (set_ip_address ip).
Proof. apply emits_silent; intros w r w' E; inversion E; reflexivity. Qed.

Lemma emits_item0 P {A} (l : list A) : emits P (item0 l).
Proof. destruct l; [apply emits_raise | apply emits_ret]. Qed.

Lemma emits_emit (P : Event -> Prop) e : P e -> emits P (emit e).
Proof.
  intros H w r w' E; inversion E; exists [e]; split; [reflexivity | constructor; auto].
Qed.

Lemma emits_bind P {A B} (m : M A) (k : A -> M B) :
  emits P m -> (forall a, emits P (k a)) -> emits P (bind m k).
Proof.
  intros Hm Hk w r w2 E.
  apply bind_inv in E; destruct E as [(a & w1 & E1 & E2) | (e & E1 & _)].
  - destruct (Hm _ _ _ E1) as (es1 & T1 & F1), (Hk a _ _ _ E2) as (es2 & T2 & F2).
    exists (es2 ++ es1)%list; split.
    + rewrite T2, T1, app_assoc; reflexivity.
    + apply Forall_app; auto.
  - apply (Hm _ _ _ E1).
Qed.

Lemma emits_attempt P {A} (m : M A) : emits P m -> emits P (attempt m).
Proof.
  intros Hm w r w' E; unfold attempt in E.
  destruct (m w) as [r0 w0] eqn:E0; inversion E; subst.
  apply (Hm _ _ _ E0).
Qed.

Create HintDb emits.

#[local] Hint Resolve emits_ret emits_raise emits_lift emits_self emits_set_ip_address
  emits_item0 emits_attempt : emits.

Ltac emits_auto :=
  repeat first
    [ solve [eauto with emits]
    | apply emits_emit; solve [auto]
    | apply emits_bind; [| intro]
    | apply emits_attempt
    | match goal with
      | |- emits _ (if ?b then _ else _) => destruct b
      | |- emits _ (match ?x with _ => _ end) => destruct x
      end ].

Section Emits.

Variable P : Event -> Prop.
Hypothesis P_get : forall url timeout, P (Get url timeout).
Hypothesis P_now : P Now.
Hypothesis P_sleep : forall secs, P (Sleep secs).
Hypothesis P_row : forall wh mis watts, P (UpdateRow wh mis watts).
Hypothesis P_debug : forall msg, P (Log DEBUG msg).
Hypothesis P_error : forall msg, P (Log ERROR msg).
Hypothesis P_info_updated : forall ip, P (Log INFO ("IP address updated to " ++ ip ++ ".")).
Hypothesis P_info_status : P (Log INFO "Determining current solar cell status...").
Hypothesis P_info_entering : P (Log INFO "Entering main loop").
Hypothesis P_info_offline :
  P (Log INFO "Solar system is offline. Signing off for the night.").

Lemma emits_requests_get_ url timeout : emits P (requests_get_ url timeout).
Proof.
  intros w r w' E; inversion E; exists [Get url timeout]; split; [reflexivity | auto].
Qed.

Lemma emits_now : emits P now.
Proof. intros w r w' E; inversion E; exists [Now]; split; [reflexivity | auto]. Qed.

Lemma emits_sheet_update_row wh mis watts : emits P (sheet_update_row wh mis watts).
Proof.
  intros w r w' E; inversion E; exists [UpdateRow wh mis watts]; split; [reflexivity | auto].
Qed.

Hint Resolve emits_requests_get_ emits_now emits_sheet_update_row : emits.

Lemma emits_scan tag base l : emits P (scan tag base l).
Proof. induction l as [| i l IH]; cbn [scan]; emits_auto. Qed.

Hint Resolve emits_scan : emits.

Lemma emits_get_ip_address : emits P get_ip_address.
Proof. unfold get_ip_address; emits_auto. Qed.

Hint Resolve emits_get_ip_address : emits.

Lemma emits_get_response path : emits P (get_response path).
Proof. unfold get_response; emits_auto. Qed.

Hint Resolve emits_get_response : emits.

Lemma emits_get_wh_production : emits P get_wh_production.
Proof. unfold get_wh_production, wh_of_text, log; emits_auto. Qed.

Lemma emits_get_current_watt_production : emits P get_current_watt_production.
Proof. unfold get_current_watt_production, watts_of_text, log; emits_auto. Qed.

Lemma emits_get_mi_online : emits P get_mi_online.
Proof. unfold get_mi_online, mi_of_text, log; emits_auto. Qed.

Hint Resolve emits_get_wh_production emits_get_current_watt_production
  emits_get_mi_online : emits.

Lemma emits_is_online : emits P is_online.
Proof. unfold is_online; emits_auto. Qed.

Lemma emits_is_past_noon : emits P is_past_noon.
Proof. unfold is_past_noon; emits_auto. Qed.

Hint Resolve emits_is_online emits_is_past_noon : emits.

Lemma emits_loop_condition : emits P loop_condition.
Proof. unfold loop_condition; emits_auto. Qed.

Lemma emits_cycle : emits P cycle.
Proof. unfold cycle, poll, log, time_sleep; emits_auto. Qed.

Hint Resolve emits_loop_condition emits_cycle : emits.

Lemma emits_main_loop_while fuel : emits P (main_loop_while fuel).
Proof. induction fuel as [| fuel IH]; cbn [main_loop_while]; emits_auto. Qed.

Hint Resolve emits_main_loop_while : emits.

Lemma emits_main_loop fuel : emits P (main_loop fuel).
Proof. unfold main_loop, log; emits_auto. Qed.

End Emits.

(** *** Startup *)

Ltac other_than_tac := unfold other_than; intros; simpl; discriminate.

Lemma main_loop_never_waits fuel :
  emits (other_than (Log INFO "Waiting for sunrise...")) (main_loop fuel).
Proof. apply emits_main_loop; other_than_tac. Qed.

Lemma get_mi_online_never_waits :
  emits (other_than (Log INFO "Waiting for sunrise...")) get_mi_online.
Proof. apply emits_get_mi_online; other_than_tac. Qed.

Lemma get_mi_online_never_enters :
  emits (other_than (Log INFO "Entering main loop")) get_mi_online.
Proof. apply emits_get_mi_online; other_than_tac. Qed.

Lemma wait_on_sunrise_while_woken k w wk : forall fuel m wk',
  waits k w wk ->
  get_mi_online wk = (Ok m, wk') -> 0 < m -> (k < fuel)%nat ->
  wait_on_sunrise_while fuel w = (Ok (Some tt), wk').
Proof.
  intros fuel m wk' Hw; revert fuel.
  induction Hw as [w | n w c w1 w2 G Hc Hw IH]; intros fuel Gk Hm Hk;
    (destruct fuel as [| fuel]; [lia |]); cbn [wait_on_sunrise_while].
  - erewrite bind_ok by exact (is_online_count w Gk).
    apply Z.ltb_lt in Hm; rewrite Hm; reflexivity.
  - erewrite bind_ok by exact (is_online_count w G).
    apply Z.ltb_ge in Hc; rewrite Hc; cbn [negb].
    unfold bind at 1, time_sleep, emit; apply IH; [assumption | assumption | lia].
Qed.

Lemma run_unfold fuel w n w1 :
  get_mi_online (push (Log INFO "Started, initializing...") w) = (Ok n, w1) ->
  run fuel w =
  conclude
    (if 0 <? n then main_loop fuel (push (Log INFO "Solar system online on startup.") w1)
     else if past_noon (datetime_now (clock w1)) then
       (Ok (Some tt),
        push (Log WARNING "Program was started after sunset. Shutting down.") (push Now w1))
     else
       match wait_on_sunrise_while fuel
               (push (Log INFO "Waiting for sunrise...") (push Now w1)) with
       | (Ok (Some _), w2) =>
           main_loop fuel
             (push (Log INFO "Microinverters have started, seems like sunrise. Main loop starting.") w2)
       | (Ok None, w2) => (Ok None, w2)
       | (Raise e, w2) => (Raise e, w2)
       end).
Proof.
  intros G; unfold run, bind at 1, log at 1, emit.
  unfold bind at 1; rewrite (is_online_count _ G).
  unfold bind at 1; destruct (0 <? n).
  - unfold bind at 1, log at 1, emit.
    destruct (main_loop fuel _) as [[[[] |] | e] w2]; reflexivity.
  - unfold bind at 1, is_past_noon, bind at 1, now, ret at 1.
    destruct (past_noon (datetime_now (clock w1))); cbn [negb].
    + reflexivity.
    + unfold bind at 1, wait_on_sunrise, bind at 1, log at 1, emit.
      destruct (wait_on_sunrise_while fuel _) as [[[[] |] | e] w2]; try reflexivity.
      unfold bind at 1, log at 1, emit.
      destruct (main_loop fuel _) as [[[[] |] | e'] w3]; reflexivity.
Qed.

Lemma conclude_trace rw :
  trace (snd (conclude rw)) = trace (snd rw) \/
  trace (snd (conclude rw)) =
  Log INFO "Run call ending, program terminating." :: trace (snd rw).
Proof. destruct rw as [[[[] |] | e] w]; simpl; auto. Qed.

(** C4: what [run] does after reading the inverter count [n] at startup.
    With [n > 0] it goes straight into [main_loop], and nothing it does
    from then on logs the wait for sunrise.  With [n <= 0] before noon it
    enters [wait_on_sunrise], and once a count above 0 is read there it
    goes into [main_loop].  With [n <= 0] past noon it logs that it was
    started after sunset and ends, without the main loop's entry line. *)
Theorem run_startup_decision : forall fuel w n w1,
  get_mi_online (push (Log INFO "Started, initializing...") w) = (Ok n, w1) ->
  (0 < n ->
     run fuel w =
     conclude (main_loop fuel (push (Log INFO "Solar system online on startup.") w1)) /\
     exists es, trace (snd (run fuel w)) = (es ++ trace w)%list /\
                ~ In (Log INFO "Waiting for sunrise...") es) /\
  (n <= 0 -> past_noon (datetime_now (clock w1)) = false ->
     forall k wk m wk',
       waits k (push (Log INFO "Waiting for sunrise...") (push Now w1)) wk ->
       get_mi_online wk = (Ok m, wk') -> 0 < m -> (k < fuel)%nat ->
       run fuel w =
       conclude
         (main_loop fuel
            (push (Log INFO "Microinverters have started, seems like sunrise. Main loop starting.")
                  wk'))) /\
  (n <= 0 -> past_noon (datetime_now (clock w1)) = true ->
     run fuel w =
     (Ok (Some tt),
      push (Log INFO "Run call ending, program terminating.")
        (push (Log WARNING "Program was started after sunset. Shutting down.")
           (push Now w1))) /\
     exists es, trace (snd (run fuel w)) = (es ++ trace w)%list /\
                ~ In (Log INFO "Entering main loop") es).
Proof.
  intros fuel w n w1 G; pose proof (run_unfold fuel w G) as R.
  split; [| split].
  - intros Hn; apply Z.ltb_lt in Hn; rewrite Hn in R; split; [exact R |].
    destruct (get_mi_online_never_waits _ G) as (es1 & T1 & F1).
    destruct (main_loop fuel (push (Log INFO "Solar system online on startup.") w1))
      as [r2 w2] eqn:L.
    destruct (main_loop_never_waits fuel _ L) as (es2 & T2 & F2).
    assert (F : Forall (other_than (Log INFO "Waiting for sunrise..."))
                  (es2 ++ Log INFO "Solar system online on startup." :: es1
                       ++ [Log INFO "Started, initializing..."])%list).
    { apply Forall_app; split; [exact F2 |].
      constructor; [other_than_tac |].
      apply Forall_app; split; [exact F1 |].
      constructor; [other_than_tac | constructor]. }
    assert (T : trace w2 =
                ((es2 ++ Log INFO "Solar system online on startup." :: es1
                      ++ [Log INFO "Started, initializing..."]) ++ trace w)%list).
    { rewrite T2; simpl; rewrite T1; simpl.
      rewrite <- !app_assoc; simpl; rewrite <- app_assoc; reflexivity. }
    rewrite R; destruct (conclude_trace (r2, w2)) as [C | C]; rewrite C; simpl.
    + eexists; split; [exact T |].
      intros Hin; apply (proj1 (Forall_forall _ _) F _ Hin); reflexivity.
    + eexists (_ :: _); split; [simpl; rewrite T; reflexivity |].
      intros [Hin | Hin]; [discriminate |].
      apply (proj1 (Forall_forall _ _) F _ Hin); reflexivity.
  - intros Hn Hp k wk m wk' Hw Gk Hm Hk.
    apply Z.ltb_ge in Hn; rewrite Hn, Hp in R.
    rewrite (wait_on_sunrise_while_woken Hw Gk Hm Hk) in R; exact R.
  - intros Hn Hp; apply Z.ltb_ge in Hn; rewrite Hn, Hp in R; split; [exact R |].
    destruct (get_mi_online_never_enters _ G) as (es1 & T1 & F1).
    rewrite R; simpl; rewrite T1; simpl.
    exists (Log INFO "Run call ending, program terminating."
            :: Log WARNING "Program was started after sunset. Shutting down."
            :: Now :: es1 ++ [Log INFO "Started, initializing..."])%list.
    split; [simpl; rewrite <- app_assoc; reflexivity |].
    intros [Hin | [Hin | [Hin | Hin]]]; try discriminate.
    apply in_app_or in Hin; destruct Hin as [Hin | [Hin | []]]; [| discriminate].
    apply (proj1 (Forall_forall _ _) F1 _ Hin); reflexivity.
Qed.


(** ** Further properties *)

(** *** number_pattern *)

Lemma findall_runs s : Forall (fun r => is_run r = true) (number_pattern_findall s).
Proof.
  induction s as [| c s IH]; [constructor |].
  cbn [number_pattern_findall].
  destruct (number_class c) eqn:Hc; [| exact IH].
  assert (H1 : is_run (String c EmptyString) = true)
    by (unfold is_run; simpl; rewrite Hc; reflexivity).
  destruct s as [| c' s']; [constructor; [exact H1 | constructor] |].
  destruct (number_class c'); [| constructor; [exact H1 | exact IH]].
  destruct (number_pattern_findall (String c' s')) as [| r rs].
  - constructor; [exact H1 | constructor].
  - inversion IH as [| ? ? Hr Hrs]; subst; constructor; [| assumption].
    unfold is_run in *; simpl; rewrite Hc.
    apply andb_true_iff in Hr; destruct Hr as [_ Hr]; exact Hr.
Qed.

(** X1: [number_pattern.findall] yields only non-empty strings of digits
    and dots, and yields none exactly when the text holds neither a digit
    nor a dot. *)
Theorem number_pattern_matches :
  (forall s, Forall (fun r => is_run r = true) (number_pattern_findall s)) /\
  (forall s, number_pattern_findall s = [] <-> existsb_str number_class s = false).
Proof.
  split; [exact findall_runs |].
  intros s; split.
  - intros E; destruct (existsb_str number_class s) eqn:X; [| reflexivity].
    exfalso; apply (findall_some_number s X E).
  - apply findall_no_number.
Qed.

Lemma split_dot_no_dot s :
  existsb_str is_dot s = false -> split_dot s = (s, None).
Proof.
  induction s as [| c s IH]; simpl; [reflexivity |].
  intros H; apply orb_false_iff in H; destruct H as [Hc Hs].
  rewrite Hc, (IH Hs); reflexivity.
Qed.

Lemma all_digits_no_dot s : forallb_str is_digit s = true -> existsb_str is_dot s = false.
Proof.
  induction s as [| c s IH]; simpl; [reflexivity |].
  intros H; apply andb_true_iff in H; destruct H as [Hc Hs].
  rewrite (IH Hs), orb_false_r.
  unfold is_digit in Hc; unfold is_dot.
  destruct (Ascii.eqb_spec c "."); [subst; discriminate | reflexivity].
Qed.

Lemma count_dots_zero s : count_str is_dot s = O -> existsb_str is_dot s = false.
Proof.
  induction s as [| c s IH]; simpl; [reflexivity |].
  destruct (is_dot c); [discriminate | exact IH].
Qed.

Lemma split_dot_count s : forall ip fp,
  split_dot s = (ip, Some fp) -> count_str is_dot s = S (count_str is_dot fp).
Proof.
  induction s as [| c s IH]; intros ip fp E; simpl in E; [discriminate |].
  simpl; destruct (is_dot c).
  - inversion E; reflexivity.
  - destruct (split_dot s) as [a [b |]]; inversion E; subst.
    apply (IH a fp eq_refl).
Qed.

Lemma float_of_str_two_dots s :
  (2 <= count_str is_dot s)%nat -> float_of_str s = None.
Proof.
  intros H; unfold float_of_str.
  destruct (split_dot s) as [ip [fp |]] eqn:E.
  - rewrite (split_dot_count s E) in H.
    destruct (forallb_str is_digit fp) eqn:D; [| rewrite andb_false_r; reflexivity].
    apply all_digits_no_dot in D.
    assert (count_str is_dot fp = O); [| lia].
    clear - D; induction fp as [| c fp IH]; simpl in *; [reflexivity |].
    apply orb_false_iff in D; destruct D as [-> D]; auto.
  - exfalso.
    assert (X : existsb_str is_dot s = true).
    { clear - H; induction s as [| c s IH]; simpl in *; [lia |].
      destruct (is_dot c); [reflexivity | simpl; apply IH, H]. }
    clear - E X; revert ip E; induction s as [| c s IH]; intros ip E; simpl in *;
      [discriminate |].
    destruct (is_dot c); [discriminate |].
    destruct (split_dot s) as [a [b |]]; [discriminate |].
    simpl in X; apply (IH X a eq_refl).
Qed.

(** X2: a reading whose first run of digits and dots holds two dots or
    more (an address, a version number) is no numeral: both extractions
    log the failure and return 0. *)
Theorem extraction_of_run_with_two_dots : forall data0 m0 rest w,
  number_pattern_findall data0 = m0 :: rest ->
  (2 <= count_str is_dot m0)%nat ->
  wh_of_text data0 w = (Ok 0, push (Log ERROR "Couldn't convert to float") w) /\
  watts_of_text data0 w = (Ok (Int 0), push (Log ERROR "Couldn't convert to float") w).
Proof.
  intros data0 m0 rest w E H.
  rewrite (wh_of_text_run _ w E), (watts_of_text_run _ w E), (float_of_str_two_dots m0 H).
  split; reflexivity.
Qed.

(** *** The locator, read backwards *)

Lemma scan_inv tag base n : forall a w r w',
  scan tag base (seq a n) w = (r, w') ->
  let outcome j := requests_get (clock w + j)%nat (probe_url base (a + j)) (Some 2) in
  match r with
  | Ok (Some ip) =>
      exists i, (i < n)%nat /\ ip = candidate base (a + i) /\
        forallb (fun j => probe_miss tag (outcome j)) (seq 0 i) = true /\
        probe_hit tag (outcome i) = true /\
        w' = extend (rev (map (probe_event base) (seq a (S i)))) w
  | Ok None =>
      forallb (fun j => probe_miss tag (outcome j)) (seq 0 n) = true /\
      w' = extend (rev (map (probe_event base) (seq a n))) w
  | Raise e =>
      exists i, (i < n)%nat /\
        forallb (fun j => probe_miss tag (outcome j)) (seq 0 i) = true /\
        probe_result tag (outcome i) = Raise e /\ probe_fatal tag (outcome i) = true /\
        w' = extend (rev (map (probe_event base) (seq a (S i)))) w
  end.
Proof.
  induction n as [| n IH]; intros a w r w' H outcome.
  - inversion H; subst; split; [reflexivity | rewrite extend_nil; reflexivity].
  - change (seq a (S n)) with (a :: seq (S a) n) in H; rewrite scan_step in H.
    assert (Hshift : forall i,
              forallb (fun j => probe_miss tag
                         (requests_get (clock (push (probe_event base a) w) + j)%nat
                            (probe_url base (S a + j)) (Some 2))) (seq 0 i) =
              forallb (fun j => probe_miss tag (outcome j)) (seq 1 i)).
    { intros i; rewrite forallb_seq_S; apply forallb_pointwise.
      intros j; unfold outcome; rewrite clock_push, !Nat.add_succ_r; reflexivity. }
    assert (Hrest : forall r w', probe_miss tag (outcome 0%nat) = true ->
              scan tag base (seq (S a) n) (push (probe_event base a) w) = (r, w') ->
              match r with
              | Ok (Some ip) =>
                  exists i, (i < S n)%nat /\ ip = candidate base (a + i) /\
                    forallb (fun j => probe_miss tag (outcome j)) (seq 0 i) = true /\
                    probe_hit tag (outcome i) = true /\
                    w' = extend (rev (map (probe_event base) (seq a (S i)))) w
              | Ok None =>
                  forallb (fun j => probe_miss tag (outcome j)) (seq 0 (S n)) = true /\
                  w' = extend (rev (map (probe_event base) (seq a (S n)))) w
              | Raise e =>
                  exists i, (i < S n)%nat /\
                    forallb (fun j => probe_miss tag (outcome j)) (seq 0 i) = true /\
                    probe_result tag (outcome i) = Raise e /\ probe_fatal tag (outcome i) = true /\
                    w' = extend (rev (map (probe_event base) (seq a (S i)))) w
              end).
    { intros r0 w0 Hm Hs; apply IH in Hs; cbv zeta in Hs.
      destruct r0 as [[ip |] | e].
      - destruct Hs as (i & Hi & Hip & Hmiss & Hhit & Hw).
        exists (S i); rewrite Hshift in Hmiss.
        rewrite clock_push in Hhit; simpl in Hhit.
        rewrite extend_push in Hw.
        split; [lia | split; [rewrite Nat.add_succ_r; exact Hip | split; [| split]]].
        + change (seq 0 (S i)) with (0%nat :: seq 1 i); simpl; rewrite Hm, Hmiss; reflexivity.
        + unfold outcome; rewrite !Nat.add_succ_r; exact Hhit.
        + exact Hw.
      - destruct Hs as (Hmiss & Hw); rewrite Hshift in Hmiss; rewrite extend_push in Hw.
        split; [| exact Hw].
        change (seq 0 (S n)) with (0%nat :: seq 1 n); simpl; rewrite Hm, Hmiss; reflexivity.
      - destruct Hs as (i & Hi & Hmiss & Hout & Hfatal & Hw).
        exists (S i); rewrite Hshift in Hmiss.
        rewrite clock_push in Hout, Hfatal; simpl in Hout, Hfatal.
        rewrite extend_push in Hw.
        split; [lia | split; [| split; [| split]]].
        + change (seq 0 (S i)) with (0%nat :: seq 1 i); simpl; rewrite Hm, Hmiss; reflexivity.
        + unfold outcome; rewrite !Nat.add_succ_r; exact Hout.
        + unfold outcome; rewrite !Nat.add_succ_r; exact Hfatal.
        + exact Hw. }
    assert (H0 : outcome 0%nat = requests_get (clock w) (probe_url base a) (Some 2)).
    { unfold outcome; rewrite !Nat.add_0_r; reflexivity. }
    destruct (probe_result tag (requests_get (clock w) (probe_url base a) (Some 2)))
      as [[] | e] eqn:G.
    + inversion H; subst.
      exists 0%nat; rewrite Nat.add_0_r; unfold probe_hit; rewrite H0, G.
      repeat split; lia.
    + apply Hrest; [unfold probe_miss; rewrite H0, G; reflexivity | exact H].
    + destruct (isinstance_ConnectionError e || isinstance_Timeout e) eqn:S.
      * apply Hrest; [unfold probe_miss; rewrite H0, G; exact S | exact H].
      * inversion H; subst.
        exists 0%nat; unfold probe_fatal; rewrite H0, G, S.
        repeat split; lia.
Qed.

(** X3: whatever [get_ip_address] answers in scan mode tells what the
    probes did.  An address is [base.i] for some [i < 256] whose page
    matched the tag, after [i] probes passed over; [None] means all 256
    were passed over; an exception is the one that the GET of a probe, or
    [re.search] on its page, raised and that is neither a connection
    error nor a time-out, all probes before it were passed over and
    nothing was probed after it. *)
Theorem get_ip_address_outcomes : forall w r w',
  _using_static_ip (reader w) = false ->
  get_ip_address w = (r, w') ->
  let tag := _tag (reader w) in
  let base := _base_ip_range (reader w) in
  let outcome j := requests_get (clock w + j)%nat (probe_url base j) (Some 2) in
  match r with
  | Ok (Some ip) =>
      exists i, (i < 256)%nat /\ ip = candidate base i /\
        forallb (fun j => probe_miss tag (outcome j)) (seq 0 i) = true /\
        probe_hit tag (outcome i) = true /\
        w' = extend (rev (map (probe_event base) (seq 0 (S i)))) w
  | Ok None =>
      forallb (fun j => probe_miss tag (outcome j)) (seq 0 256) = true /\
      w' = extend (rev (map (probe_event base) (seq 0 256))) w
  | Raise e =>
      exists i, (i < 256)%nat /\
        forallb (fun j => probe_miss tag (outcome j)) (seq 0 i) = true /\
        probe_result tag (outcome i) = Raise e /\ probe_fatal tag (outcome i) = true /\
        w' = extend (rev (map (probe_event base) (seq 0 (S i)))) w
  end.
Proof.
  intros w r w' Hscan H tag base outcome.
  unfold get_ip_address, bind, self in H; rewrite Hscan in H.
  apply (scan_inv tag base 256 0 w H).
Qed.


(** *** The address the client holds *)

Lemma get_ip_address_scan_mode w :
  _using_static_ip (reader w) = false ->
  get_ip_address w = scan (_tag (reader w)) (_base_ip_range (reader w)) (seq 0 256) w.
Proof. intros H; unfold get_ip_address, bind, self; rewrite H; reflexivity. Qed.

Lemma nonempty_candidate base i : nonempty (candidate base i) = true.
Proof. unfold candidate; destruct base; reflexivity. Qed.

Lemma get_ip_address_candidate w ip w' :
  _using_static_ip (reader w) = false ->
  get_ip_address w = (Ok (Some ip), w') ->
  exists i, (i < 256)%nat /\ ip = candidate (_base_ip_range (reader w)) i.
Proof.
  intros Hscan H; rewrite (get_ip_address_scan_mode w Hscan) in H.
  apply scan_inv in H; cbv zeta in H.
  destruct H as (i & Hi & Hip & _); exists i; auto.
Qed.

Lemma get_response_cases path w :
  get_response path w =
  match requests_get (clock w) ("http://" ++ _ip_address (reader w) ++ path) None with
  | Ok response =>
      (Ok response, push (Get ("http://" ++ _ip_address (reader w) ++ path) None) w)
  | Raise e =>
      if isinstance_ConnectionError e && negb (_using_static_ip (reader w)) then
        match get_ip_address
                (push (Get ("http://" ++ _ip_address (reader w) ++ path) None) w) with
        | (Ok (Some new_ip), w2) =>
            (requests_get
               (clock (push (Log INFO ("IP address updated to " ++ new_ip ++ "."))
                         (with_ip new_ip w2)))
               ("http://" ++ new_ip ++ path) None,
             push (Get ("http://" ++ new_ip ++ path) None)
               (push (Log INFO ("IP address updated to " ++ new_ip ++ "."))
                  (with_ip new_ip w2)))
        | (Ok None, w2) =>
            (Raise (RuntimeError "A seemingly valid IP address failed."), w2)
        | (Raise e', w2) => (Raise e', w2)
        end
      else (Raise e, push (Get ("http://" ++ _ip_address (reader w) ++ path) None) w)
  end.
Proof.
  unfold get_response, bind at 1 2, self, attempt, requests_get_ at 1.
  destruct (requests_get (clock w) ("http://" ++ _ip_address (reader w) ++ path) None)
    as [resp | e]; [reflexivity |].
  destruct (isinstance_ConnectionError e); [| reflexivity].
  destruct (_using_static_ip (reader w)); [reflexivity |].
  cbn [andb negb]; unfold bind at 1.
  destruct (get_ip_address _) as [[[new_ip |] | e'] w2]; reflexivity.
Qed.

Lemma get_response_address_inv : forall path w,
  let url := "http://" ++ _ip_address (reader w) ++ path in
  let w' := snd (get_response path w) in
  same_config (reader w) (reader w') /\
  (exists es, trace w' = (es ++ Get url None :: trace w)%list) /\
  (_ip_address (reader w') = _ip_address (reader w) \/
   _using_static_ip (reader w) = false /\
   (exists e, requests_get (clock w) url None = Raise e /\
              isinstance_ConnectionError e = true) /\
   (exists i, (i < 256)%nat /\
              _ip_address (reader w') = candidate (_base_ip_range (reader w)) i)).
Proof.
  intros path w url w'; subst w'; rewrite get_response_cases; fold url.
  assert (Triv : forall x : World,
            same_config (reader w) (reader (push (Get url None) w)) /\
            (exists es, trace (push (Get url None) w) = (es ++ Get url None :: trace w)%list) /\
            (_ip_address (reader (push (Get url None) w)) = _ip_address (reader w) \/
             _using_static_ip (reader w) = false /\
             (exists e, requests_get (clock w) url None = Raise e /\
                        isinstance_ConnectionError e = true) /\
             (exists i, (i < 256)%nat /\
                        _ip_address (reader (push (Get url None) w)) =
                        candidate (_base_ip_range (reader w)) i))).
  { intros _; split; [repeat split | split; [exists []; reflexivity | left; reflexivity]]. }
  destruct (requests_get (clock w) url None) as [resp | e] eqn:G; [apply (Triv w) |].
  destruct (isinstance_ConnectionError e) eqn:Ce; [| apply (Triv w)].
  destruct (_using_static_ip (reader w)) eqn:Hmode; [apply (Triv w) |].
  cbn [andb negb]; set (w1 := push (Get url None) w).
  destruct (get_ip_address w1) as [r w2] eqn:S.
  pose proof (get_ip_address_reader w1 S) as Hr.
  pose proof (@emits_get_ip_address (fun _ => True) (fun _ _ => I)) as HE.
  destruct (HE _ _ _ S) as (es & T & _); clear HE.
  destruct r as [[ip |] | e'].
  - destruct (get_ip_address_candidate w1 Hmode S) as (i & Hi & Hip).
    cbn [snd push with_ip reader trace _tag _base_ip_range _using_static_ip _ip_address].
    rewrite Hr, T; cbn [w1 push reader trace].
    split; [repeat split | split].
    + exists (Get ("http://" ++ ip ++ path) None
              :: Log INFO ("IP address updated to " ++ ip ++ ".") :: es)%list.
      reflexivity.
    + right; split; [reflexivity | split; [exists e; auto | exists i; auto]].
  - cbn [snd]; rewrite Hr, T; cbn [w1 push reader trace].
    split; [repeat split | split; [exists es; reflexivity | left; reflexivity]].
  - cbn [snd]; rewrite Hr, T; cbn [w1 push reader trace].
    split; [repeat split | split; [exists es; reflexivity | left; reflexivity]].
Qed.

(** X4: [get_response] always starts with one GET at the address it
    holds, and never touches tag, range or mode.  It runs the locator
    exactly when that GET raises a connection error and the reader
    scans.  When it does not, or when the locator yields no address, the
    reader holds the address it held; when the locator yields an
    address, that address is the one the reader holds afterwards, and it
    is the candidate [base.i], [i < 256], whose probe matched. *)
Theorem get_response_address : forall path w,
  let url := "http://" ++ _ip_address (reader w) ++ path in
  let w1 := push (Get url None) w in
  let w' := snd (get_response path w) in
  let relocates :=
    match requests_get (clock w) url None with
    | Ok _ => false
    | Raise e => isinstance_ConnectionError e && negb (_using_static_ip (reader w))
    end in
  same_config (reader w) (reader w') /\
  (exists es, trace w' = (es ++ Get url None :: trace w)%list) /\
  (relocates = false -> _ip_address (reader w') = _ip_address (reader w)) /\
  (relocates = true ->
     match fst (get_ip_address w1) with
     | Ok (Some ip) =>
         _ip_address (reader w') = ip /\
         exists i, (i < 256)%nat /\
           ip = candidate (_base_ip_range (reader w)) i /\
           probe_hit (_tag (reader w))
             (requests_get (clock w1 + i)%nat
                (probe_url (_base_ip_range (reader w)) i) (Some 2)) = true
     | _ => _ip_address (reader w') = _ip_address (reader w)
     end).
Proof.
  intros path w url w1 w' relocates.
  destruct (get_response_address_inv path w) as (HC & HT & _).
  split; [exact HC | split; [exact HT |]].
  subst w' relocates; rewrite get_response_cases; fold url; fold w1.
  destruct (requests_get (clock w) url None) as [resp | e];
    [split; [reflexivity | discriminate] |].
  destruct (isinstance_ConnectionError e && negb (_using_static_ip (reader w))) eqn:B;
    [split; [discriminate | intros _] | split; [reflexivity | discriminate]].
  apply andb_true_iff in B; destruct B as [_ Hmode]; apply negb_true_iff in Hmode.
  destruct (get_ip_address w1) as [r w2] eqn:S.
  pose proof (get_ip_address_reader w1 S) as Hr.
  destruct r as [[ip |] | e'].
  - cbn [fst snd push with_ip reader _ip_address]; split; [reflexivity |].
    rewrite (get_ip_address_scan_mode w1 Hmode) in S.
    apply scan_inv in S; cbv zeta in S.
    destruct S as (i & Hi & Hip & _ & Hhit & _).
    exists i; split; [exact Hi | split; [exact Hip | exact Hhit]].
  - cbn [fst snd]; rewrite Hr; reflexivity.
  - cbn [fst snd]; rewrite Hr; reflexivity.
Qed.

(** *** What the reader keeps *)

Lemma keeps_silent I {A} (m : M A) :
  (forall w r w', m w = (r, w') -> reader w' = reader w) -> keeps I m.
Proof. intros H w r w' E HI; rewrite (H _ _ _ E); exact HI. Qed.

Lemma keeps_ret I {A} (a : A) : keeps I (ret a).
Proof. apply keeps_silent; intros w r w' E; inversion E; reflexivity. Qed.

Lemma keeps_raise I {A} (e : exn) : keeps I (@raise A e).
Proof. apply keeps_silent; intros w r w' E; inversion E; reflexivity. Qed.

Lemma keeps_lift I {A} (x : PyResult A) : keeps I (lift x).
Proof. apply keeps_silent; intros w r w' E; inversion E; reflexivity. Qed.

Lemma keeps_item0 I {A} (l : list A) : keeps I (item0 l).
Proof. destruct l; [apply keeps_raise | apply keeps_ret]. Qed.

Lemma keeps_emit I e : keeps I (emit e).
Proof. apply keeps_silent; intros w r w' E; inversion E; reflexivity. Qed.

Lemma keeps_now I : keeps I now.
Proof. apply keeps_silent; intros w r w' E; inversion E; reflexivity. Qed.

Lemma keeps_sheet_update_row I wh mis watts : keeps I (sheet_update_row wh mis watts).
Proof. apply keeps_silent; intros w r w' E; inversion E; reflexivity. Qed.

Lemma keeps_bind I {A B} (m : M A) (k : A -> M B) :
  keeps I m -> (forall a, keeps I (k a)) -> keeps I (bind m k).
Proof.
  intros Hm Hk w r w2 E HI.
  apply bind_inv in E; destruct E as [(a & w1 & E1 & E2) | (e & E1 & _)].
  - apply (Hk a _ _ _ E2), (Hm _ _ _ E1), HI.
  - apply (Hm _ _ _ E1), HI.
Qed.

Lemma keeps_attempt I {A} (m : M A) : keeps I m -> keeps I (attempt m).
Proof.
  intros Hm w r w' E; unfold attempt in E.
  destruct (m w) as [r0 w0] eqn:E0; inversion E; subst.
  apply (Hm _ _ _ E0).
Qed.

Create HintDb keeps.

#[local] Hint Resolve keeps_ret keeps_raise keeps_lift keeps_item0 keeps_emit keeps_now
  keeps_sheet_update_row : keeps.

Ltac keeps_auto :=
  repeat first
    [ solve [eauto with keeps]
    | apply keeps_bind; [| intro]
    | apply keeps_attempt
    | match goal with
      | |- keeps _ (if ?b then _ else _) => destruct b
      | |- keeps _ (match ?x with _ => _ end) => destruct x
      end ].

Section Keeps.

Variable I : SolarReader -> Prop.
Hypothesis I_get_response : forall path, keeps I (get_response path).

Hint Resolve I_get_response : keeps.

Lemma keeps_get_wh_production : keeps I get_wh_production.
Proof. unfold get_wh_production, wh_of_text, log; keeps_auto. Qed.

Lemma keeps_get_current_watt_production : keeps I get_current_watt_production.
Proof. unfold get_current_watt_production, watts_of_text, log; keeps_auto. Qed.

Lemma keeps_get_mi_online : keeps I get_mi_online.
Proof. unfold get_mi_online, mi_of_text, log; keeps_auto. Qed.

Hint Resolve keeps_get_wh_production keeps_get_current_watt_production
  keeps_get_mi_online : keeps.

Lemma keeps_is_online : keeps I is_online.
Proof. unfold is_online; keeps_auto. Qed.

Lemma keeps_is_past_noon : keeps I is_past_noon.
Proof. unfold is_past_noon; keeps_auto. Qed.

Hint Resolve keeps_is_online keeps_is_past_noon : keeps.

Lemma keeps_loop_condition : keeps I loop_condition.
Proof. unfold loop_condition; keeps_auto. Qed.

Lemma keeps_cycle : keeps I cycle.
Proof. unfold cycle, poll, log, time_sleep; keeps_auto. Qed.

Hint Resolve keeps_loop_condition keeps_cycle : keeps.

Lemma keeps_main_loop_while fuel : keeps I (main_loop_while fuel).
Proof. induction fuel as [| fuel IH]; cbn [main_loop_while]; keeps_auto. Qed.

Lemma keeps_wait_on_sunrise_while fuel : keeps I (wait_on_sunrise_while fuel).
Proof.
  induction fuel as [| fuel IH]; cbn [wait_on_sunrise_while]; unfold time_sleep; keeps_auto.
Qed.

Hint Resolve keeps_main_loop_while keeps_wait_on_sunrise_while : keeps.

Lemma keeps_main_loop fuel : keeps I (main_loop fuel).
Proof. unfold main_loop, log; keeps_auto. Qed.

Lemma keeps_wait_on_sunrise fuel : keeps I (wait_on_sunrise fuel).
Proof. unfold wait_on_sunrise, log; keeps_auto. Qed.

Hint Resolve keeps_main_loop keeps_wait_on_sunrise : keeps.

Lemma keeps_run fuel : keeps I (run fuel).
Proof. unfold run, log; keeps_auto. Qed.

End Keeps.

Lemma get_response_keeps_config r0 path :
  keeps (same_config r0) (get_response path).
Proof.
  intros w r w' E (H1 & H2 & H3).
  destruct (get_response_address_inv path w) as ((C1 & C2 & C3) & _).
  rewrite E in C1, C2, C3; simpl in C1, C2, C3.
  unfold same_config; rewrite C1, C2, C3; auto.
Qed.

Lemma get_response_keeps_addressed path : keeps addressed (get_response path).
Proof.
  intros w r w' E HI.
  destruct (get_response_address_inv path w) as (_ & _ & [A | (_ & _ & i & _ & A)]);
    rewrite E in A; simpl in A; unfold addressed; rewrite A;
    [exact HI | apply nonempty_candidate].
Qed.

Lemma get_response_keeps_static r0 path :
  _using_static_ip r0 = true -> keeps (eq r0) (get_response path).
Proof.
  intros Hs w r w' E HI; subst r0.
  rewrite (get_response_static path w Hs) in E; inversion E; reflexivity.
Qed.

(** X5: over a whole [run], however it ends, the reader keeps its tag,
    its address range and its mode; an address that is not empty stays
    not empty; and a reader in static mode ends exactly as it began. *)
Theorem run_keeps_reader : forall fuel w,
  let w' := snd (run fuel w) in
  same_config (reader w) (reader w') /\
  (addressed (reader w) -> addressed (reader w')) /\
  (_using_static_ip (reader w) = true -> reader w' = reader w).
Proof.
  intros fuel w w'; subst w'.
  destruct (run fuel w) as [r w'] eqn:E; cbn [snd].
  split; [| split].
  - apply (@keeps_run (same_config (reader w))
             (@get_response_keeps_config (reader w)) fuel w r w' E).
    repeat split.
  - apply (@keeps_run addressed get_response_keeps_addressed fuel w r w' E).
  - intros Hs; symmetry.
    apply (@keeps_run (eq (reader w))
             (fun path => @get_response_keeps_static (reader w) path Hs) fuel w r w' E).
    reflexivity.
Qed.


(** *** Construction *)

Lemma SolarReader_init_static_cases tag base ip tr :
  nonempty ip = true ->
  SolarReader_init tag base (Some ip) tr =
  let w1 := push (Log INFO "Determining connection to solar system...")
              {| reader := initial_reader tag base (Some ip); trace := tr |} in
  let url := "http://" ++ ip ++ "/" in
  match requests_get (clock w1) url None with
  | Ok response =>
      if status_code response =? 200 then
        (Ok tt,
         push (Log INFO ("Found solar device at IP address " ++ ip))
           (push (Log INFO "Connected successfully") (push (Get url None) w1)))
      else
        (Raise (RuntimeError "Static IP was specified but connection could not be made."),
         push (Log INFO "Connected successfully") (push (Get url None) w1))
  | Raise e =>
      (Raise e,
       if isinstance_ConnectionError e
       then push (Log ERROR "Error: Can't connect to the solar array. Check the POE connection, or the status on the box.")
              (push (Get url None) w1)
       else push (Get url None) w1)
  end.
Proof.
  intros Hip; unfold SolarReader_init, initial_reader; rewrite Hip.
  set (w0 := {| reader := _; trace := tr |}).
  unfold bind at 1, bind at 1, solar_panels_accessible, bind at 1, log at 1, emit.
  unfold bind at 1, attempt.
  rewrite get_response_static by reflexivity.
  cbv zeta; cbn [reader push w0 _ip_address].
  destruct (requests_get _ _ None) as [resp | e].
  - unfold bind at 1, log at 1, emit, ret at 1.
    destruct (status_code resp =? 200); [| reflexivity].
    unfold ret at 1, bind at 1, self.
    cbn [reader push w0 _ip_address]; rewrite Hip; reflexivity.
  - destruct (isinstance_ConnectionError e); reflexivity.
Qed.

(** X6: a reader given a static address is built with exactly one GET,
    to the root page of that address.  Construction succeeds exactly when
    that GET answers with status 200, and then the reader is in static
    mode at that address; any other status raises [RuntimeError]; a GET
    that raises ends construction with that exception. *)
Theorem static_construction : forall tag base ip tr,
  nonempty ip = true ->
  let url := "http://" ++ ip ++ "/" in
  let out := requests_get (S (List.length tr)) url None in
  let res := SolarReader_init tag base (Some ip) tr in
  (fst res = Ok tt <-> exists response, out = Ok response /\ status_code response = 200) /\
  (fst res = Ok tt -> reader (snd res) = initial_reader tag base (Some ip)) /\
  (forall response, out = Ok response -> status_code response <> 200 ->
     fst res =
     Raise (RuntimeError "Static IP was specified but connection could not be made.")) /\
  (forall e, out = Raise e -> fst res = Raise e) /\
  (exists es,
     trace (snd res) =
     (es ++ Get url None :: Log INFO "Determining connection to solar system..." :: tr)%list /\
     Forall is_log es).
Proof.
  intros tag base ip tr Hip url out res; subst res.
  rewrite (SolarReader_init_static_cases tag base ip tr Hip); cbv zeta.
  change (clock (push (Log INFO "Determining connection to solar system...")
                   {| reader := initial_reader tag base (Some ip); trace := tr |}))
    with (S (List.length tr)).
  fold url; fold out.
  assert (L : forall l m, is_log (Log l m)) by (intros l m; exists l, m; reflexivity).
  destruct out as [resp | e].
  - destruct (status_code resp =? 200) eqn:S200.
    + apply Z.eqb_eq in S200.
      repeat split; try reflexivity; try discriminate.
      * intros _; exists resp; auto.
      * intros r Hr Hne; inversion Hr; subst; contradiction.
      * eexists [_; _]; split; [reflexivity | repeat constructor; apply L].
    + apply Z.eqb_neq in S200.
      repeat split; try reflexivity; try discriminate.
      * intros (r & Hr & H200); inversion Hr; subst; contradiction.
      * eexists [_]; split; [reflexivity | repeat constructor; apply L].
  - repeat split; try discriminate.
    + intros (r & Hr & _); discriminate.
    + intros e' He; inversion He; reflexivity.
    + destruct (isinstance_ConnectionError e).
      * eexists [_]; split; [reflexivity | repeat constructor; apply L].
      * exists []; split; [reflexivity | constructor].
Qed.

Lemma SolarReader_init_scan_cases tag base static_ip tr :
  match static_ip with Some ip => nonempty ip | None => false end = false ->
  SolarReader_init tag base static_ip tr =
  match get_ip_address
          (push (Log INFO "Searching for IP address.")
             {| reader := initial_reader tag base static_ip; trace := tr |}) with
  | (Ok (Some ip), w1) =>
      if nonempty ip
      then (Ok tt, push (Log INFO ("Found solar device at IP address " ++ ip)) (with_ip ip w1))
      else (Raise (RuntimeError "Connection could not be established to solar device."),
            with_ip ip w1)
  | (Ok None, w1) =>
      (Raise (RuntimeError "Connection could not be established to solar device."),
       with_ip "" w1)
  | (Raise e, w1) => (Raise e, w1)
  end.
Proof.
  intros Hmode; unfold SolarReader_init, initial_reader; rewrite Hmode.
  set (w0 := {| reader := _; trace := tr |}).
  unfold bind at 1, bind at 1, bind at 1, log at 1, emit.
  unfold bind at 1.
  destruct (get_ip_address (push _ w0)) as [[[ip |] | e] w1]; try reflexivity.
  - unfold set_ip_address, bind, self; cbn [reader with_ip _ip_address].
    destruct (nonempty ip); reflexivity.
Qed.

(** X7: a reader given no static address (or an empty one) is built by
    one scan.  When probe [i] is the first whose page matches the tag,
    the reader holds [base.i] after [i + 1] probes; when all 256 probes
    are passed over, construction raises [RuntimeError]. *)
Theorem scan_construction : forall tag base tr,
  let w0 := push (Log INFO "Searching for IP address.")
              {| reader := initial_reader tag base None; trace := tr |} in
  let outcome j := requests_get (S (List.length tr) + j)%nat (probe_url base j) (Some 2) in
  SolarReader_init tag base (Some "") tr = SolarReader_init tag base None tr /\
  (forall i, (i < 256)%nat ->
     forallb (fun j => probe_miss tag (outcome j)) (seq 0 i) = true ->
     probe_hit tag (outcome i) = true ->
     SolarReader_init tag base None tr =
     (Ok tt,
      push (Log INFO ("Found solar device at IP address " ++ candidate base i))
        (with_ip (candidate base i)
           (extend (rev (map (probe_event base) (seq 0 (S i)))) w0)))) /\
  (forallb (fun j => probe_miss tag (outcome j)) (seq 0 256) = true ->
     SolarReader_init tag base None tr =
     (Raise (RuntimeError "Connection could not be established to solar device."),
      with_ip "" (extend (rev (map (probe_event base) (seq 0 256))) w0))).
Proof.
  intros tag base tr w0 outcome.
  assert (E : get_ip_address w0 = scan tag base (seq 0 256) w0)
    by exact (get_ip_address_scan_mode w0 eq_refl).
  split; [| split].
  - rewrite (SolarReader_init_scan_cases tag base (Some "") tr eq_refl),
      (SolarReader_init_scan_cases tag base None tr eq_refl).
    unfold initial_reader; reflexivity.
  - intros i Hi Hmiss Hhit.
    rewrite (SolarReader_init_scan_cases tag base None tr eq_refl); fold w0.
    rewrite E, (scan_first_hit tag base (n := 256) 0 w0 (i := i) Hi Hmiss Hhit).
    cbn [Nat.add]; rewrite nonempty_candidate; reflexivity.
  - intros Hmiss.
    rewrite (SolarReader_init_scan_cases tag base None tr eq_refl); fold w0.
    rewrite E, (scan_all_miss tag base 256 0 w0 Hmiss); reflexivity.
Qed.

(** X8: a reader that [__init__] returns holds a non-empty address, the
    tag and range it was given, and the mode its static address decides;
    in static mode the address is the given one, in scan mode it is a
    candidate [base.i] with [i < 256]. *)
Theorem construction_postcondition : forall tag base static_ip tr w,
  SolarReader_init tag base static_ip tr = (Ok tt, w) ->
  addressed (reader w) /\
  same_config (initial_reader tag base static_ip) (reader w) /\
  (_using_static_ip (reader w) = true ->
   _ip_address (reader w) = _ip_address (initial_reader tag base static_ip)) /\
  (_using_static_ip (reader w) = false ->
   exists i, (i < 256)%nat /\ _ip_address (reader w) = candidate base i).
Proof.
  intros tag base static_ip tr w H.
  destruct (match static_ip with Some ip => nonempty ip | None => false end) eqn:Hmode.
  - destruct static_ip as [ip |]; [| discriminate].
    rewrite (SolarReader_init_static_cases tag base ip tr Hmode) in H; cbv zeta in H.
    destruct (requests_get _ _ None) as [resp | e]; [| discriminate].
    destruct (status_code resp =? 200); [| discriminate].
    inversion H; subst; cbn [reader push].
    unfold addressed, same_config, initial_reader; cbn; rewrite Hmode.
    repeat split; try reflexivity; discriminate.
  - rewrite (SolarReader_init_scan_cases tag base static_ip tr Hmode) in H.
    set (w0 := push _ _) in H.
    assert (Hs : _using_static_ip (reader w0) = false) by exact Hmode.
    destruct (get_ip_address w0) as [[[ip |] | e] w1] eqn:S; try discriminate.
    destruct (nonempty ip) eqn:Hip; [| discriminate].
    destruct (get_ip_address_candidate w0 Hs S) as (i & Hi & Hcand).
    pose proof (get_ip_address_reader w0 S) as Hr.
    assert (Hrw : reader w =
                  {| _tag := tag; _base_ip_range := base;
                     _using_static_ip := false; _ip_address := ip |}).
    { inversion H; subst w; cbn [reader push with_ip]; rewrite Hr.
      subst w0; cbn [reader push initial_reader _tag _base_ip_range _using_static_ip].
      rewrite Hmode; reflexivity. }
    rewrite Hrw; unfold addressed, same_config, initial_reader.
    cbn [_ip_address _tag _base_ip_range _using_static_ip]; rewrite Hmode.
    split; [exact Hip | split; [repeat split | split; [discriminate |]]].
    intros _; exists i; split; [exact Hi | exact Hcand].
Qed.


(** *** The inverter count *)







(** *** One cycle of the main loop *)



Lemma reads_never_write_rows :
  emits not_row get_wh_production /\
  emits not_row get_mi_online /\
  emits not_row get_current_watt_production.
Proof.
  split; [| split].
  - apply emits_get_wh_production; intros; exact I.
  - apply emits_get_mi_online; intros; exact I.
  - apply emits_get_current_watt_production; intros; exact I.
Qed.

(** X11: the [try] block hands the sheet a row only after all three
    reads have returned, in the order energy, count, power, and then
    exactly the values read, of which energy and power are >= 0; when a
    read raises, no row is written in that cycle. *)
Theorem poll_writes_row_after_three_reads : forall w r w',
  poll w = (r, w') ->
  (exists wh w1 mis w2 watts w3,
     get_wh_production w = (Ok wh, w1) /\
     get_mi_online w1 = (Ok mis, w2) /\
     get_current_watt_production w2 = (Ok watts, w3) /\
     r = update_row (clock w3) wh mis watts /\
     w' = push (UpdateRow wh mis watts) w3 /\
     0 <= wh /\ num_ge0 watts = true) \/
  (exists e es, r = Raise e /\ trace w' = (es ++ trace w)%list /\ Forall not_row es).
Proof.
  intros w r w' H; unfold poll in H.
  destruct reads_never_write_rows as (Ewh & Emi & Ewatts).
  destruct (get_wh_production w) as [[wh | e] w1] eqn:G1.
  - destruct (Ewh _ _ _ G1) as (es1 & T1 & F1).
    rewrite (bind_ok _ _ _ G1) in H.
    destruct (get_mi_online w1) as [[mis | e] w2] eqn:G2.
    + destruct (Emi _ _ _ G2) as (es2 & T2 & F2).
      rewrite (bind_ok _ _ _ G2) in H.
      destruct (get_current_watt_production w2) as [[watts | e] w3] eqn:G3.
      * rewrite (bind_ok _ _ _ G3) in H; unfold sheet_update_row in H.
        inversion H; subst; left.
        exists wh, w1, mis, w2, watts, w3; repeat split; auto.
        -- unfold get_wh_production in G1.
           apply bind_ok_inv in G1; destruct G1 as (? & ? & _ & G1).
           apply bind_ok_inv in G1; destruct G1 as (? & ? & _ & G1).
           apply bind_ok_inv in G1; destruct G1 as (? & ? & _ & G1).
           apply wh_of_text_nonneg in G1; exact G1.
        -- unfold get_current_watt_production in G3.
           apply bind_ok_inv in G3; destruct G3 as (? & ? & _ & G3).
           apply bind_ok_inv in G3; destruct G3 as (? & ? & _ & G3).
           apply bind_ok_inv in G3; destruct G3 as (? & ? & _ & G3).
           apply watts_of_text_nonneg in G3; exact G3.
      * destruct (Ewatts _ _ _ G3) as (es3 & T3 & F3).
        rewrite (bind_raise _ _ _ G3) in H; inversion H; subst; right.
        exists e, (es3 ++ es2 ++ es1)%list; split; [reflexivity | split].
        -- rewrite T3, T2, T1, <- !app_assoc; reflexivity.
        -- repeat (apply Forall_app; split); assumption.
    + destruct (Emi _ _ _ G2) as (es2 & T2 & F2).
      rewrite (bind_raise _ _ _ G2) in H; inversion H; subst; right.
      exists e, (es2 ++ es1)%list; split; [reflexivity | split].
      * rewrite T2, T1, <- !app_assoc; reflexivity.
      * apply Forall_app; split; assumption.
  - destruct (Ewh _ _ _ G1) as (es1 & T1 & F1).
    rewrite (bind_raise _ _ _ G1) in H; inversion H; subst; right.
    exists e, es1; auto.
Qed.


(** *** The two loops *)

Lemma wait_on_sunrise_while_S fuel w :
  wait_on_sunrise_while (S fuel) w =
  match get_mi_online w with
  | (Ok n, w1) =>
      if 0 <? n then (Ok (Some tt), w1)
      else wait_on_sunrise_while fuel (push (Sleep 600) w1)
  | (Raise e, w1) => (Raise e, w1)
  end.
Proof.
  cbn [wait_on_sunrise_while].
  destruct (get_mi_online w) as [[n | e] w1] eqn:G.
  - erewrite bind_ok by exact (is_online_count w G).
    destruct (0 <? n); reflexivity.
  - erewrite bind_raise by exact (is_online_raise w G); reflexivity.
Qed.

Lemma wait_emits_blind fuel : emits blind (wait_on_sunrise fuel).
Proof.
  assert (G : emits blind get_mi_online) by (apply emits_get_mi_online; intros; exact I).
  assert (O : emits blind is_online).
  { unfold is_online; apply emits_bind; [exact G | intros; apply emits_ret]. }
  unfold wait_on_sunrise, log; apply emits_bind; [apply emits_emit; exact I | intros _].
  induction fuel as [| fuel IH]; cbn [wait_on_sunrise_while]; [apply emits_ret |].
  apply emits_bind; [exact O | intros b].
  destruct b; cbn [negb]; [apply emits_ret |].
  apply emits_bind; [apply emits_emit; exact I | intros _; exact IH].
Qed.

(** X12: while the array stays offline, [wait_on_sunrise] is still
    waiting after any number of ten-minute sleeps; it never reads the
    clock and never writes to the sheet, so noon does not end it; and an
    inverter read that raises while it waits ends it with that
    exception. *)
Theorem wait_on_sunrise_only_ends_on_a_count : forall k w wk,
  waits k w wk ->
  wait_on_sunrise_while k w = (Ok None, wk) /\
  (forall fuel e wk',
     get_mi_online wk = (Raise e, wk') -> (k < fuel)%nat ->
     wait_on_sunrise_while fuel w = (Raise e, wk')) /\
  (forall fuel, exists es,
     trace (snd (wait_on_sunrise fuel w)) = (es ++ trace w)%list /\ Forall blind es).
Proof.
  intros k w wk Hw; split; [| split].
  - induction Hw as [w | n w c w1 w2 G Hc Hw IH]; [reflexivity |].
    rewrite wait_on_sunrise_while_S, G.
    apply Z.ltb_ge in Hc; rewrite Hc; exact IH.
  - intros fuel e wk' Ge; revert fuel.
    induction Hw as [w | n w c w1 w2 G Hc Hw IH]; intros fuel Hk;
      (destruct fuel as [| fuel]; [lia |]); rewrite wait_on_sunrise_while_S.
    + rewrite Ge; reflexivity.
    + rewrite G; apply Z.ltb_ge in Hc; rewrite Hc.
      apply IH; [exact Ge | lia].
  - intros fuel.
    destruct (wait_on_sunrise fuel w) as [r w'] eqn:E.
    apply (wait_emits_blind fuel w E).
Qed.

(** X13: as long as the clock shows an hour of 12 or less, [main_loop]
    does not sign off: whatever the inverter counts and however long it
    runs, its loop is never left normally. *)
Theorem main_loop_never_signs_off_before_13 : forall fuel w,
  (forall t, hour (datetime_now t) <= 12) ->
  fst (main_loop_while fuel w) <> Ok (Some tt) /\
  fst (main_loop fuel w) <> Ok (Some tt).
Proof.
  intros fuel w Hclock.
  assert (H : forall w0, fst (main_loop_while fuel w0) <> Ok (Some tt)).
  { intros w0 E.
    destruct (main_loop_while fuel w0) as [r w'] eqn:L; simpl in E; subst r.
    apply main_loop_while_exit in L; destruct L as (n & wn & _ & _ & X).
    apply loop_condition_exit in X; destruct X as (c & w1 & _ & _ & Hh & _).
    specialize (Hclock (clock w1)); lia. }
  split; [apply H |].
  unfold main_loop, bind at 1, log at 1, emit.
  specialize (H (push (Log INFO "Entering main loop") w)).
  unfold bind at 1.
  destruct (main_loop_while fuel _) as [[[[] |] | e] w']; simpl in *;
    [contradiction | discriminate | discriminate].
Qed.

(** *** The pace of a run *)

Lemma acts_of I P {A} (m : M A) : keeps I m -> emits P m -> acts I P m.
Proof. intros K E w r w' H HI; split; [apply (K _ _ _ H HI) | apply (E _ _ _ H)]. Qed.

Lemma acts_bind I P {A B} (m : M A) (k : A -> M B) :
  acts I P m -> (forall a, acts I P (k a)) -> acts I P (bind m k).
Proof.
  intros Hm Hk w r w2 E HI.
  apply bind_inv in E; destruct E as [(a & w1 & E1 & E2) | (e & E1 & _)].
  - destruct (Hm _ _ _ E1 HI) as (HI1 & es1 & T1 & F1).
    destruct (Hk a _ _ _ E2 HI1) as (HI2 & es2 & T2 & F2).
    split; [exact HI2 |].
    exists (es2 ++ es1)%list; split.
    + rewrite T2, T1, app_assoc; reflexivity.
    + apply Forall_app; auto.
  - apply (Hm _ _ _ E1 HI).
Qed.

Lemma acts_self_bind I P {B} (k : SolarReader -> M B) :
  (forall s, I s -> acts I P (k s)) -> acts I P (bind self k).
Proof.
  intros Hk w r w' E HI; unfold bind, self in E.
  destruct (Hk (reader w) HI _ _ _ E HI) as (HI' & es & T & F).
  split; [exact HI' | exists es; auto].
Qed.

Lemma acts_attempt I P {A} (m : M A) : acts I P m -> acts I P (attempt m).
Proof.
  intros Hm w r w' E; unfold attempt in E.
  destruct (m w) as [r0 w0] eqn:E0; inversion E; subst.
  apply (Hm _ _ _ E0).
Qed.

Lemma acts_ret I P {A} (a : A) : acts I P (ret a).
Proof. apply acts_of; [apply keeps_ret | apply emits_ret]. Qed.

Lemma acts_raise I P {A} (e : exn) : acts I P (@raise A e).
Proof. apply acts_of; [apply keeps_raise | apply emits_raise]. Qed.

Lemma acts_lift I P {A} (x : PyResult A) : acts I P (lift x).
Proof. apply acts_of; [apply keeps_lift | apply emits_lift]. Qed.

Lemma acts_item0 I P {A} (l : list A) : acts I P (item0 l).
Proof. apply acts_of; [apply keeps_item0 | apply emits_item0]. Qed.

Lemma acts_emit I (P : Event -> Prop) e : P e -> acts I P (emit e).
Proof. intros H; apply acts_of; [apply keeps_emit | apply emits_emit, H]. Qed.

Lemma acts_requests_get_ I (P : Event -> Prop) url timeout :
  P (Get url timeout) -> acts I P (requests_get_ url timeout).
Proof.
  intros H w r w' E HI; inversion E; subst; split; [exact HI |].
  exists [Get url timeout]; split; [reflexivity | repeat constructor; exact H].
Qed.

Lemma acts_now I (P : Event -> Prop) : P Now -> acts I P now.
Proof.
  intros H w r w' E HI; inversion E; subst; split; [exact HI |].
  exists [Now]; split; [reflexivity | repeat constructor; exact H].
Qed.

Lemma acts_sheet_update_row I (P : Event -> Prop) wh mis watts :
  P (UpdateRow wh mis watts) -> acts I P (sheet_update_row wh mis watts).
Proof.
  intros H w r w' E HI; inversion E; subst; split; [exact HI |].
  exists [UpdateRow wh mis watts]; split; [reflexivity | repeat constructor; exact H].
Qed.

Create HintDb acts.

#[local] Hint Resolve acts_ret acts_raise acts_lift acts_item0 : acts.

Ltac acts_auto :=
  repeat first
    [ solve [eauto with acts]
    | apply acts_self_bind; intros ? ?
    | apply acts_bind; [| intro]
    | apply acts_attempt
    | match goal with
      | |- acts _ _ (if ?b then _ else _) => destruct b
      | |- acts _ _ (match ?x with _ => _ end) => destruct x
      end ].

Section Pace.

Variables base ip0 : string.

Lemma paced_log level msg : acts (ranged base ip0) (paced base ip0) (log level msg).
Proof. apply acts_emit; exact I. Qed.

Lemma paced_sleep : acts (ranged base ip0) (paced base ip0) (time_sleep 600).
Proof. apply acts_emit; reflexivity. Qed.

Lemma paced_now : acts (ranged base ip0) (paced base ip0) now.
Proof. apply acts_now; exact I. Qed.

Lemma paced_row wh mis watts :
  acts (ranged base ip0) (paced base ip0) (sheet_update_row wh mis watts).
Proof. apply acts_sheet_update_row; exact I. Qed.

Lemma paced_probe i :
  (i < 256)%nat ->
  acts (ranged base ip0) (paced base ip0)
    (requests_get_ ("http://" ++ candidate base i) (Some 2)).
Proof.
  intros H; apply acts_requests_get_; split; [reflexivity |].
  exists i; split; [exact H | reflexivity].
Qed.

Hint Resolve paced_log paced_sleep paced_now paced_row : acts.

Lemma paced_scan tag l :
  Forall (fun i => (i < 256)%nat) l ->
  acts (ranged base ip0) (paced base ip0) (scan tag base l).
Proof.
  induction l as [| i l IH]; intros F; cbn [scan]; [apply acts_ret |].
  inversion F as [| ? ? Hi Hl]; subst.
  apply acts_bind.
  - apply acts_attempt, acts_bind; [apply paced_probe, Hi | intros; apply acts_lift].
  - intros [[] | e]; [apply acts_ret | apply IH, Hl |].
    destruct (isinstance_ConnectionError e || isinstance_Timeout e);
      [apply IH, Hl | apply acts_raise].
Qed.

Lemma paced_get_ip_address : acts (ranged base ip0) (paced base ip0) get_ip_address.
Proof.
  unfold get_ip_address; apply acts_self_bind; intros s [Hs _].
  destruct (_using_static_ip s); [apply acts_ret |].
  rewrite Hs; apply paced_scan.
  apply Forall_forall; intros i Hi; apply in_seq in Hi; lia.
Qed.

Lemma paced_get_response path :
  path = "/home" \/ path = "/production" ->
  acts (ranged base ip0) (paced base ip0) (get_response path).
Proof.
  intros Hp w r w' E HI; rewrite get_response_cases in E.
  set (url := "http://" ++ _ip_address (reader w) ++ path) in E.
  assert (P0 : paced base ip0 (Get url None)).
  { exists (_ip_address (reader w)), path; repeat split; [exact Hp | apply HI]. }
  assert (Plain : forall x, (x, push (Get url None) w) = (r, w') ->
            ranged base ip0 (reader w') /\
            exists es, trace w' = (es ++ trace w)%list /\ Forall (paced base ip0) es).
  { intros x Hx; inversion Hx; subst; split; [exact HI |].
    exists [Get url None]; split; [reflexivity | repeat constructor; exact P0]. }
  destruct (requests_get (clock w) url None) as [resp | e]; [apply (Plain _ E) |].
  destruct (isinstance_ConnectionError e && negb (_using_static_ip (reader w))) eqn:C;
    [| apply (Plain _ E)].
  apply andb_true_iff in C; destruct C as [_ Hs]; apply negb_true_iff in Hs.
  destruct (get_ip_address (push (Get url None) w)) as [r2 w2] eqn:E2.
  destruct (paced_get_ip_address _ E2 HI) as ([Hb2 Ha2] & es & T & F).
  assert (Scanned : trace w2 = ((es ++ [Get url None]) ++ trace w)%list /\
                    Forall (paced base ip0) (es ++ [Get url None])).
  { split; [rewrite T, <- app_assoc; reflexivity |].
    apply Forall_app; split; [exact F | repeat constructor; exact P0]. }
  destruct Scanned as [T2 F2].
  destruct r2 as [[new_ip |] | e'].
  - destruct (@get_ip_address_candidate (push (Get url None) w) new_ip w2 Hs E2)
      as (i & Hi & Hip).
    cbn [reader push] in Hip; rewrite (proj1 HI) in Hip.
    assert (R : reachable base ip0 new_ip) by (right; exists i; auto).
    inversion E; subst r w'; split.
    + split; [exact Hb2 | exact R].
    + eexists (_ :: _ :: (es ++ [Get url None]))%list; split.
      * cbn [trace push with_ip]; rewrite T2; reflexivity.
      * constructor; [exists new_ip, path; auto |].
        constructor; [exact I | exact F2].
  - inversion E; subst r w'; split; [split; assumption | eauto].
  - inversion E; subst r w'; split; [split; assumption | eauto].
Qed.

Hint Resolve paced_get_ip_address : acts.

Lemma paced_get_wh_production : acts (ranged base ip0) (paced base ip0) get_wh_production.
Proof.
  unfold get_wh_production, wh_of_text.
  apply acts_bind; [apply paced_get_response; right; reflexivity | intro].
  acts_auto.
Qed.

Lemma paced_get_current_watt_production :
  acts (ranged base ip0) (paced base ip0) get_current_watt_production.
Proof.
  unfold get_current_watt_production, watts_of_text.
  apply acts_bind; [apply paced_get_response; right; reflexivity | intro].
  acts_auto.
Qed.

Lemma paced_get_mi_online : acts (ranged base ip0) (paced base ip0) get_mi_online.
Proof.
  unfold get_mi_online, mi_of_text.
  apply acts_bind; [apply paced_log | intros _].
  apply acts_bind; [apply paced_get_response; left; reflexivity | intro].
  acts_auto.
Qed.

Hint Resolve paced_get_wh_production paced_get_current_watt_production
  paced_get_mi_online : acts.

Lemma paced_is_online : acts (ranged base ip0) (paced base ip0) is_online.
Proof. unfold is_online; acts_auto. Qed.

Lemma paced_is_past_noon : acts (ranged base ip0) (paced base ip0) is_past_noon.
Proof. unfold is_past_noon; acts_auto. Qed.

Hint Resolve paced_is_online paced_is_past_noon : acts.

Lemma paced_loop_condition : acts (ranged base ip0) (paced base ip0) loop_condition.
Proof. unfold loop_condition; acts_auto. Qed.

Lemma paced_cycle : acts (ranged base ip0) (paced base ip0) cycle.
Proof. unfold cycle, poll; acts_auto. Qed.

Hint Resolve paced_loop_condition paced_cycle : acts.

Lemma paced_main_loop_while fuel :
  acts (ranged base ip0) (paced base ip0) (main_loop_while fuel).
Proof. induction fuel as [| fuel IH]; cbn [main_loop_while]; acts_auto. Qed.

Lemma paced_wait_on_sunrise_while fuel :
  acts (ranged base ip0) (paced base ip0) (wait_on_sunrise_while fuel).
Proof. induction fuel as [| fuel IH]; cbn [wait_on_sunrise_while]; acts_auto. Qed.

Hint Resolve paced_main_loop_while paced_wait_on_sunrise_while : acts.

Lemma paced_main_loop fuel : acts (ranged base ip0) (paced base ip0) (main_loop fuel).
Proof. unfold main_loop; acts_auto. Qed.

Lemma paced_wait_on_sunrise fuel :
  acts (ranged base ip0) (paced base ip0) (wait_on_sunrise fuel).
Proof. unfold wait_on_sunrise; acts_auto. Qed.

Hint Resolve paced_main_loop paced_wait_on_sunrise : acts.

Lemma paced_run fuel : acts (ranged base ip0) (paced base ip0) (run fuel).
Proof. unfold run; acts_auto. Qed.

End Pace.

(** X14: whatever the device, the clock and the sheet do, the events of
    a [run] have this shape: every sleep lasts 600 seconds; every GET
    that carries a time-out carries 2 seconds and goes to the root of a
    candidate [base.i], [i < 256], of the reader's range, as the probes
    of the scan do; and every GET without a time-out asks for [/home] or
    [/production], as [get_response] does, at the address the reader
    began with or at a candidate of its range. *)
Theorem run_is_paced : forall fuel w,
  exists es,
    trace (snd (run fuel w)) = (es ++ trace w)%list /\
    Forall (paced (_base_ip_range (reader w)) (_ip_address (reader w))) es.
Proof.
  intros fuel w; destruct (run fuel w) as [r w'] eqn:E.
  apply (@paced_run (_base_ip_range (reader w)) (_ip_address (reader w)) fuel w r w' E).
  split; [reflexivity | left; reflexivity].
Qed.

End Program.

(** ** The program on the sample devices *)

Module Runs.

Import Sample.

(** A device that moved from 10.0.0.5 to 10.0.0.7 is found by the eighth
    probe: suffixes 0 to 6 are passed over (the router at 3 answers
    without the tag, the others refuse the connection). *)
Lemma get_ip_address_scans_in_order_witness :
  _using_static_ip (reader (scanning "10.0.0.5")) = false /\
  get_ip_address net_day re_search (scanning "10.0.0.5") =
  (Ok (Some "10.0.0.7"),
   extend (rev (map (probe_event "10.0.0") (seq 0 8))) (scanning "10.0.0.5")).
Proof.
  split; [reflexivity |].
  apply (proj1 (get_ip_address_scans_in_order net_day re_search
                  (scanning "10.0.0.5") eq_refl) 7%nat);
    [lia | reflexivity | reflexivity].
Defined.

(** The same device asked for [/home] at its old address: one failed GET,
    one scan of eight probes, the address stored and logged, one GET at
    the new address, whose page is the answer. *)
Lemma scan_mode_resolves_once_and_retries_once_witness :
  _using_static_ip (reader (scanning "10.0.0.5")) = false /\
  net_day 0 "http://10.0.0.5/home" None = Raise ConnectionError /\
  get_response net_day re_search "/home" (scanning "10.0.0.5") =
  (page "5",
   push (Get "http://10.0.0.7/home" None)
     (push (Log INFO "IP address updated to 10.0.0.7.")
        (with_ip "10.0.0.7"
           (extend (rev (map (probe_event "10.0.0") (seq 0 8)))
              (push (Get "http://10.0.0.5/home" None) (scanning "10.0.0.5")))))) /\
  reader (snd (get_response net_day re_search "/home" (scanning "10.0.0.5"))) =
  {| _tag := "enphase"; _base_ip_range := "10.0.0";
     _using_static_ip := false; _ip_address := "10.0.0.7" |}.
Proof.
  split; [reflexivity | split; [reflexivity |]].
  exact (proj1 (scan_mode_resolves_once_and_retries_once net_day re_search "/home"
                  (scanning "10.0.0.5") (e := ConnectionError)
                  eq_refl eq_refl eq_refl)
           "10.0.0.7"
           (extend (rev (map (probe_event "10.0.0") (seq 0 8)))
              (push (Get "http://10.0.0.5/home" None) (scanning "10.0.0.5")))
           eq_refl).
Defined.

(** A static reader whose device is down: one GET, the error as it came,
    the world otherwise untouched. *)
Lemma static_mode_never_relocates_witness :
  _using_static_ip (reader (static "10.0.0.9")) = true /\
  get_response net_down re_search "/home" (static "10.0.0.9") =
  (Raise ConnectionError, push (Get "http://10.0.0.9/home" None) (static "10.0.0.9")).
Proof.
  split; [reflexivity |].
  exact (proj1 (proj2 (static_mode_never_relocates net_down re_search "/home"
                         (static "10.0.0.9") eq_refl))).
Defined.


(** "N/A" has neither digit nor dot: both extractions raise. *)
Lemma extraction_of_text_without_digit_witness :
  existsb_str is_digit "N/A" = false /\
  wh_of_text "N/A" (static "10.0.0.7") = (Raise IndexError, static "10.0.0.7") /\
  watts_of_text "N/A" (static "10.0.0.7") = (Raise IndexError, static "10.0.0.7").
Proof.
  split; [reflexivity |].
  exact (proj2 (extraction_of_text_without_digit "N/A" (static "10.0.0.7") eq_refl)
           eq_refl).
Defined.

(** A page whose cells read "N/A" makes [get_wh_production] raise. *)
Lemma get_wh_production_garbled :
  get_wh_production net_garbled re_search xpath (static "10.0.0.7") =
  (Raise IndexError, push (Get "http://10.0.0.7/production" None) (static "10.0.0.7")).
Proof. reflexivity. Qed.

(** With the device down, the first check of the loop condition ends
    [main_loop] with the connection error. *)
Lemma main_loop_dies_when_condition_read_fails_witness :
  get_mi_online net_down re_search xpath (static "10.0.0.7") =
  (Raise ConnectionError,
   push (Get "http://10.0.0.7/home" None)
     (push (Log INFO "Determining current solar cell status...") (static "10.0.0.7"))) /\
  main_loop_while net_down afternoon sheet_ok re_search xpath 1 (static "10.0.0.7") =
  (Raise ConnectionError,
   push (Get "http://10.0.0.7/home" None)
     (push (Log INFO "Determining current solar cell status...") (static "10.0.0.7"))).
Proof.
  split; [reflexivity |].
  exact (proj2 (main_loop_dies_when_condition_read_fails net_down afternoon sheet_ok
                  re_search xpath 0 (static "10.0.0.7") (e := ConnectionError) eq_refl)).
Defined.

(** A session in which the device is lost after the twelfth effect: the
    failed read inside the [try] block is logged and slept over, the
    failed read of the next loop condition ends [run]. *)
Lemma run_dies_mid_session :
  fst (run (net_lost_at 12) morning sheet_ok re_search xpath 3 (static "10.0.0.7")) =
  Raise ConnectionError /\
  firstn 5 (trace (snd (run (net_lost_at 12) morning sheet_ok re_search xpath 3
                          (static "10.0.0.7")))) =
  [Get "http://10.0.0.7/home" None;
   Log INFO "Determining current solar cell status...";
   Sleep 600;
   Log ERROR "An exception occurred in the main loop.";
   Get "http://10.0.0.7/production" None].
Proof. split; reflexivity. Qed.

(** Five inverters online at startup: [run] goes straight to
    [main_loop]. *)
Lemma run_startup_decision_witness :
  get_mi_online net_day re_search xpath
    (push (Log INFO "Started, initializing...") (static "10.0.0.7")) =
  (Ok 5,
   push (Log DEBUG "5 out of 24 microinverters online")
     (push (Get "http://10.0.0.7/home" None)
        (push (Log INFO "Determining current solar cell status...")
           (push (Log INFO "Started, initializing...") (static "10.0.0.7"))))) /\
  run net_day morning sheet_ok re_search xpath 1 (static "10.0.0.7") =
  conclude
    (main_loop net_day morning sheet_ok re_search xpath 1
       (push (Log INFO "Solar system online on startup.")
          (push (Log DEBUG "5 out of 24 microinverters online")
             (push (Get "http://10.0.0.7/home" None)
                (push (Log INFO "Determining current solar cell status...")
                   (push (Log INFO "Started, initializing...") (static "10.0.0.7"))))))).
Proof.
  split; [reflexivity |].
  refine (proj1 (proj1 (run_startup_decision net_day morning sheet_ok re_search xpath 1
                          (static "10.0.0.7") (n := 5) eq_refl) _)).
  lia.
Defined.

(** The first cycle of that session hands the sheet 1200 Wh, 5 inverters
    and 850.0 W. *)
Lemma run_records_first_reading :
  In (UpdateRow 1200 5 (Float (S754_finite false 7476679068876800 (-43))))
     (trace (snd (run net_day morning sheet_ok re_search xpath 1 (static "10.0.0.7")))).
Proof. vm_compute; tauto. Qed.

(** No inverter online in the morning: [run] waits, and enters the main
    loop after the first count above 0. *)
Lemma run_waits_for_sunrise :
  rev (trace (snd (run (net_sunrise_at 8) morning sheet_ok re_search xpath 0
                     (static "10.0.0.7")))) =
  [Log INFO "Started, initializing...";
   Log INFO "Determining current solar cell status...";
   Get "http://10.0.0.7/home" None;
   Log DEBUG "0 out of 24 microinverters online";
   Now;
   Log INFO "Waiting for sunrise..."] /\
  In (Log INFO "Microinverters have started, seems like sunrise. Main loop starting.")
     (trace (snd (run (net_sunrise_at 8) morning sheet_ok re_search xpath 3
                    (static "10.0.0.7")))).
Proof. split; [reflexivity | vm_compute; tauto]. Qed.

(** A redirect loop at 10.0.0.2 ahead of the device at 10.0.0.7: the only
    candidate whose page matches the tag is the eighth, nothing before it
    matches, and the scan ends at the third probe with the exception
    instead of returning 10.0.0.7. *)
Lemma get_ip_address_stops_at_other_exception :
  probe_hit re_search "enphase"
    (MoreSamples.net_loop_before_device 7 (probe_url "10.0.0" 7) (Some 2)) = true /\
  forallb (fun j => negb (probe_hit re_search "enphase"
                            (MoreSamples.net_loop_before_device j (probe_url "10.0.0" j)
                               (Some 2))))
          (seq 0 7) = true /\
  get_ip_address MoreSamples.net_loop_before_device re_search (scanning "10.0.0.5") =
  (Raise RequestException,
   extend (rev (map (probe_event "10.0.0") (seq 0 3))) (scanning "10.0.0.5")).
Proof. repeat split; reflexivity. Qed.


(** A count of -1 in the afternoon: the count is not 0, and the loop
    ends at its first check all the same. *)
Lemma main_loop_exits_on_negative_count :
  fst (get_mi_online net_negative re_search xpath (static "10.0.0.7")) = Ok (-1) /\
  -1 <> 0 /\
  fst (loop_condition net_negative afternoon re_search xpath (static "10.0.0.7")) =
  Ok false /\
  fst (main_loop_while net_negative afternoon sheet_ok re_search xpath 1
         (static "10.0.0.7")) = Ok (Some tt).
Proof. repeat split; try reflexivity; discriminate. Qed.

(** The inverter count of a page whose cell reads "-1" is -1. *)
Lemma get_mi_online_returns_negative_count :
  fst (get_mi_online net_negative re_search xpath (static "10.0.0.7")) = Ok (-1) /\
  (0 <=? -1) = false.
Proof. split; reflexivity. Qed.

End Runs.

(** ** More runs on the sample devices *)

Module Checks.

Import Sample.


Import MoreSamples.

(** "v3.10.2": the run "3.10.2" holds two dots. *)
Lemma extraction_of_run_with_two_dots_witness :
  number_pattern_findall "v3.10.2" = ["3.10.2"] /\
  (2 <= count_str is_dot "3.10.2")%nat /\
  wh_of_text "v3.10.2" (static "10.0.0.7") =
  (Ok 0, push (Log ERROR "Couldn't convert to float") (static "10.0.0.7")).
Proof.
  split; [reflexivity | split; [simpl; lia |]].
  refine (proj1 (extraction_of_run_with_two_dots "v3.10.2" (static "10.0.0.7")
                   (m0 := "3.10.2") (rest := []) eq_refl _)).
  simpl; lia.
Defined.

(** A tag that is no valid pattern: the first three candidates refuse
    the connection and are passed over, the fourth answers, [re.search]
    raises on its page, and the scan ends there with that exception. *)
Lemma get_ip_address_outcomes_witness :
  _using_static_ip (reader (scanning "10.0.0.5")) = false /\
  get_ip_address net_day re_search_invalid (scanning "10.0.0.5") =
  (Raise ReError,
   extend (rev (map (probe_event "10.0.0") (seq 0 4))) (scanning "10.0.0.5")) /\
  exists i, (i < 256)%nat /\
    forallb (fun j => probe_miss re_search_invalid "enphase"
                        (net_day (0 + j)%nat (probe_url "10.0.0" j) (Some 2)))
            (seq 0 i) = true /\
    probe_result re_search_invalid "enphase"
      (net_day (0 + i)%nat (probe_url "10.0.0" i) (Some 2)) = Raise ReError /\
    probe_fatal re_search_invalid "enphase"
      (net_day (0 + i)%nat (probe_url "10.0.0" i) (Some 2)) = true /\
    extend (rev (map (probe_event "10.0.0") (seq 0 4))) (scanning "10.0.0.5") =
    extend (rev (map (probe_event "10.0.0") (seq 0 (S i)))) (scanning "10.0.0.5").
Proof.
  split; [reflexivity | split; [reflexivity |]].
  exact (get_ip_address_outcomes net_day re_search_invalid (scanning "10.0.0.5")
           (r := Raise ReError) eq_refl eq_refl).
Defined.

(** A static reader at 10.0.0.7, whose root page answers 200. *)
Lemma static_construction_witness :
  nonempty "10.0.0.7" = true /\
  fst (SolarReader_init net_day re_search "enphase" "10.0.0" (Some "10.0.0.7") []) = Ok tt /\
  reader (snd (SolarReader_init net_day re_search "enphase" "10.0.0" (Some "10.0.0.7") [])) =
  initial_reader "enphase" "10.0.0" (Some "10.0.0.7").
Proof.
  split; [reflexivity |].
  pose proof (static_construction net_day re_search "enphase" "10.0.0" "10.0.0.7" []
                eq_refl) as H; cbv zeta in H.
  destruct H as (Hiff & Hreader & _).
  assert (Hok : fst (SolarReader_init net_day re_search "enphase" "10.0.0"
                       (Some "10.0.0.7") []) = Ok tt).
  { apply (proj2 Hiff); exists {| status_code := 200; text := "enphase envoy" |}.
    split; reflexivity. }
  split; [exact Hok | exact (Hreader Hok)].
Defined.

(** A reader built by a scan of the sample network holds 10.0.0.7. *)
Lemma construction_postcondition_witness :
  fst (SolarReader_init net_day re_search "enphase" "10.0.0" None []) = Ok tt /\
  addressed (reader (snd (SolarReader_init net_day re_search "enphase" "10.0.0" None []))) /\
  _ip_address (reader (snd (SolarReader_init net_day re_search "enphase" "10.0.0" None []))) =
  "10.0.0.7".
Proof.
  split; [reflexivity | split; [| reflexivity]].
  exact (proj1 (construction_postcondition net_day re_search "enphase" "10.0.0" None []
                  (w := snd (SolarReader_init net_day re_search "enphase" "10.0.0" None []))
                  eq_refl)).
Defined.



(** On the sample device the row is 1200 Wh, 5 inverters, 850.0 W. *)
Lemma poll_writes_row_after_three_reads_witness :
  fst (poll net_day sheet_ok re_search xpath (static "10.0.0.7")) = Ok tt /\
  exists w3,
    snd (poll net_day sheet_ok re_search xpath (static "10.0.0.7")) =
    push (UpdateRow 1200 5 (Float (S754_finite false 7476679068876800 (-43)))) w3.
Proof.
  split; [reflexivity |].
  destruct (poll_writes_row_after_three_reads net_day sheet_ok re_search xpath
              (static "10.0.0.7")
              (r := fst (poll net_day sheet_ok re_search xpath (static "10.0.0.7")))
              (w' := snd (poll net_day sheet_ok re_search xpath (static "10.0.0.7")))
              eq_refl)
    as [(wh & w1 & mis & w2 & watts & w3 & G1 & G2 & G3 & _ & Hw & _) | (e & es & H & _)].
  - vm_compute in G1; inversion G1; subst wh w1.
    vm_compute in G2; inversion G2; subst mis w2.
    vm_compute in G3; inversion G3; subst watts w3.
    eexists; exact Hw.
  - discriminate H.
Defined.

(** One check before sunrise: still waiting after the sleep. *)
Lemma wait_on_sunrise_only_ends_on_a_count_witness :
  waits (net_sunrise_at 8) re_search xpath 1 (static "10.0.0.7")
    (push (Sleep 600)
       (push (Log DEBUG "0 out of 24 microinverters online")
          (push (Get "http://10.0.0.7/home" None)
             (push (Log INFO "Determining current solar cell status...")
                (static "10.0.0.7"))))) /\
  wait_on_sunrise_while (net_sunrise_at 8) re_search xpath 1 (static "10.0.0.7") =
  (Ok None,
   push (Sleep 600)
     (push (Log DEBUG "0 out of 24 microinverters online")
        (push (Get "http://10.0.0.7/home" None)
           (push (Log INFO "Determining current solar cell status...")
              (static "10.0.0.7"))))).
Proof.
  assert (W : waits (net_sunrise_at 8) re_search xpath 1 (static "10.0.0.7")
                (push (Sleep 600)
                   (push (Log DEBUG "0 out of 24 microinverters online")
                      (push (Get "http://10.0.0.7/home" None)
                         (push (Log INFO "Determining current solar cell status...")
                            (static "10.0.0.7")))))).
  { eapply waits_S with (c := 0); [reflexivity | lia | apply waits_O]. }
  split; [exact W |].
  exact (proj1 (wait_on_sunrise_only_ends_on_a_count W)).
Defined.

(** A morning clock: three cycles on, the loop is still running. *)
Lemma main_loop_never_signs_off_before_13_witness :
  (forall t, hour (morning t) <= 12) /\
  fst (main_loop_while net_negative morning sheet_ok re_search xpath 3 (static "10.0.0.7")) <>
  Ok (Some tt).
Proof.
  assert (H : forall t, hour (morning t) <= 12) by (intros t; simpl; lia).
  split; [exact H |].
  exact (proj1 (main_loop_never_signs_off_before_13 net_negative morning sheet_ok
                  re_search xpath 3 (static "10.0.0.7") H)).
Defined.

(** A reader scanning from the stale address 10.0.0.5 on the sample
    network: the first GET is refused, the locator finds the device at
    the eighth candidate, and that address is the one the reader holds
    afterwards. *)
Lemma get_response_address_witness :
  _ip_address (reader (snd (get_response net_day re_search "/home" (scanning "10.0.0.5")))) =
  candidate "10.0.0" 7 /\
  probe_hit re_search "enphase"
    (net_day (clock (push (Get "http://10.0.0.5/home" None) (scanning "10.0.0.5")) + 7)%nat
       (probe_url "10.0.0" 7) (Some 2)) = true.
Proof.
  destruct (get_response_address net_day re_search "/home" (scanning "10.0.0.5"))
    as (_ & _ & _ & H).
  specialize (H eq_refl).
  split; [exact (proj1 H) | reflexivity].
Defined.

(** The white space [int] strips: a no-break space around the digits is
    stripped, a file separator is not and makes the text unreadable. *)
Lemma int_of_str_white_space :
  Py.int_of_str (String (ascii_of_nat 160) "5") = Some 5 /\
  Py.int_of_str (String (ascii_of_nat 133) " 12 ") = Some 12 /\
  Py.int_of_str (String (ascii_of_nat 28) "5") = None /\
  Py.int_of_str (String (ascii_of_nat 31) "5") = None.
Proof. repeat split; reflexivity. Qed.

End Checks.
